(** * CareerPath API: a shallow embedding of [main.py] and [schemas.py]

    The request handlers of the backend are embedded as functions over an
    explicit document store.  Documents are Python dicts, modelled as finite
    maps from field names to values; the store handle [db] is either absent
    ([None]) or a store.  Exceptions are values of an outcome type, so that a
    handler that raises is distinguished from one that returns. *)

From stdpp Require Import gmap strings list fin_maps.
From Stdlib Require Import ZArith.
From Stdlib.Strings Require Import Byte Ascii.

Open Scope string_scope.

(** ** Identifiers

    [bson.objectid.ObjectId] wraps a byte string; identifiers assigned by the
    store have 12 bytes.  [str(oid)] is the lowercase hexadecimal rendering,
    and [ObjectId(s)] accepts a string of length 24 that [bytes.fromhex]
    converts, raising [InvalidId] otherwise. *)

#[global] Instance byte_eq_decision : EqDecision byte := byte_eq_dec.

Definition ObjectId := list byte.

Definition hex_digit (n : N) : ascii :=
  if (n <? 10)%N then ascii_of_N (48 + n) else ascii_of_N (87 + n).

Fixpoint hexlify (bs : list byte) : string :=
  match bs with
  | [] => ""
  | b :: bs' =>
      String (hex_digit (Byte.to_N b / 16))
        (String (hex_digit (Byte.to_N b mod 16)) (hexlify bs'))
  end.

Definition ObjectId_str (o : ObjectId) : string := hexlify o.

(** One hexadecimal digit, either case. *)
Definition hex_val (c : ascii) : option N :=
  let n := N_of_ascii c in
  if ((48 <=? n) && (n <=? 57))%N then Some (n - 48)%N
  else if ((97 <=? n) && (n <=? 102))%N then Some (n - 87)%N
  else if ((65 <=? n) && (n <=? 70))%N then Some (n - 55)%N
  else None.

(** ASCII whitespace, which [bytes.fromhex] skips between bytes. *)
Definition is_space (c : ascii) : bool :=
  let n := N_of_ascii c in
  ((n =? 32) || ((9 <=? n) && (n <=? 13)))%N.

Fixpoint fromhex (s : string) : option (list byte) :=
  match s with
  | EmptyString => Some []
  | String c s' =>
      if is_space c then fromhex s'
      else
        match hex_val c, s' with
        | Some hi, String c2 s'' =>
            match hex_val c2 with
            | Some lo =>
                match Byte.of_N (16 * hi + lo), fromhex s'' with
                | Some b, Some bs => Some (b :: bs)
                | _, _ => None
                end
            | None => None
            end
        | _, _ => None
        end
  end.

(** [ObjectId(s)] for a string argument; [None] stands for [InvalidId]. *)
Definition ObjectId_of_str (s : string) : option ObjectId :=
  if Nat.eqb (String.length s) 24 then fromhex s else None.

(** ** Values and documents *)

#[warnings="-register-all"]
Inductive value :=
| VNone
| VInt (z : Z)
| VStr (s : string)
| VOid (o : ObjectId)
| VList (l : list value)
| VDict (d : gmap string value).

(** A Python dict with string keys. *)
Abbreviation dict := (gmap string value).

(** A document of the store.  The internal identifier (the entry under
    ["_id"]) is kept apart from the other entries: the store assigns it and
    it is an [ObjectId]; [doc_id d = None] is a dict without an ["_id"]
    entry.  [doc_fields] holds the entries under the other keys. *)
Record doc := Doc { doc_id : option ObjectId; doc_fields : dict }.

Definition doc_get (k : string) (d : doc) : option value :=
  if String.eqb k "_id" then VOid <$> doc_id d else doc_fields d !! k.

(** Truth value of a dict: empty dicts are falsy. *)
Definition doc_truthy (d : doc) : bool :=
  match doc_id d with
  | Some _ => true
  | None => negb (Nat.eqb (size (doc_fields d)) 0)
  end.

(** Truth value of a string and of an optional string. *)
Definition str_truthy (s : string) : bool := negb (String.eqb s "").

Definition opt_truthy (o : option string) : bool :=
  match o with
  | Some s => str_truthy s
  | None => false
  end.

(** ** Exceptions and outcomes *)

Inductive exn :=
| HTTPException (status_code : Z) (detail : string)
| KeyError (key : string)
| IndexError
| InvalidId (s : string)
| ValidationError
| OperationFailure
| NotImplementedError.

Inductive outcome (A : Type) :=
| Return (a : A)
| Raise (e : exn).
Arguments Return {A} a.
Arguments Raise {A} e.

#[global] Instance outcome_ret : MRet outcome := @Return.

#[global] Instance outcome_bind : MBind outcome := λ A B f m,
  match m with
  | Return a => f a
  | Raise e => Raise e
  end.

(** An error the client is told about as its own: an [HTTPException] with a
    4xx status.  Any other exception leaves the handler unhandled and the
    framework answers with a server error. *)
Definition client_error (e : exn) : bool :=
  match e with
  | HTTPException c _ => ((400 <=? c) && (c <? 500))%Z
  | _ => false
  end.

Definition server_error (e : exn) : bool :=
  match e with
  | HTTPException c _ => (500 <=? c)%Z
  | _ => true
  end.

(** ** Filters

    The filter dicts the handlers pass to [find], [find_one] and
    [delete_one].  A filter is a dict, here the list of its entries; an entry
    constrains a field or combines sub-filters under [$or] / [$and]. *)

Inductive scalar :=
| SStr (s : string)
| SOid (o : ObjectId).

Inductive cond :=
| CEq (c : scalar)                      (* {key: c} *)
| CRegex (pattern options : string)     (* {key: {"$regex": p, "$options": o}} *)
| CIn (cs : list scalar).               (* {key: {"$in": cs}} *)

#[warnings="-register-all"]
Inductive entry :=
| Field (key : string) (c : cond)
| QOr (qs : list (list entry))
| QAnd (qs : list (list entry)).

Definition query := list entry.

(** ** The document store

    The store is an external collaborator.  Its regular-expression engine
    and its ordering of values are taken as given: a pattern with its options
    either compiles to a predicate on strings or is rejected, and [sort_by]
    is the ascending [sort] of a cursor on a key.  So is the truth value of
    a present handle, [db_bool]: what [bool(db)] gives where a handler
    writes [if db].  The [Database] of pymongo raises [NotImplementedError]
    there; a substitute handle may simply be true. *)

Class Engine := {
  regex_compile : string → string → option (string → bool);
  sort_by : string → list doc → list doc;
  db_bool : outcome bool
}.

(** Modelled from the spec: the handle [db] of the [database] module, which
    is not part of the sources at hand.  It is absent ([None]) or a store of
    named collections that assigns identifiers on insertion; a handler gets
    it as an [option Store].  [db is None] tests its absence; [if db] tests
    its truth value, which is false for [None] and [db_bool] otherwise. *)
Record Store := MkStore {
  collections : gmap string (list doc);
  next_id : N
}.

(** [db[name]]: a collection that was never written to is empty. *)
Definition coll (st : Store) (name : string) : list doc :=
  default [] (collections st !! name).

Definition set_coll (st : Store) (name : string) (ds : list doc) : Store :=
  MkStore (<[name := ds]> (collections st)) (next_id st).

Definition empty_store : Store := MkStore ∅ 0.

(** The 12 bytes of a fresh identifier, from the store's counter. *)
Fixpoint be_bytes (len : nat) (x : N) : list byte :=
  match len with
  | O => []
  | S len' => (be_bytes len' (x / 256) ++ [default x00%byte (Byte.of_N (x mod 256))])%list
  end.

Definition new_oid (n : N) : ObjectId := be_bytes 12 n.

Section store.
Context {engine : Engine}.

Definition value_is (c : scalar) (v : value) : bool :=
  match c, v with
  | SStr a, VStr b => String.eqb a b
  | SOid a, VOid b => bool_decide (a = b)
  | _, _ => false
  end.

(** A condition holds of a field when it holds of its value or, for an
    array, of one of its elements. *)
Definition field_any (p : value → bool) (v : value) : bool :=
  p v || match v with VList l => existsb p l | _ => false end.

Definition regex_is (pattern options : string) (v : value) : bool :=
  match regex_compile pattern options, v with
  | Some m, VStr s => m s
  | _, _ => false
  end.

Definition cond_matches (c : cond) (ov : option value) : bool :=
  match ov with
  | None => false
  | Some v =>
      match c with
      | CEq c => field_any (value_is c) v
      | CRegex p o => field_any (regex_is p o) v
      | CIn cs => field_any (λ v, existsb (λ c, value_is c v) cs) v
      end
  end.

Fixpoint entry_matches (d : doc) (e : entry) : bool :=
  match e with
  | Field k c => cond_matches c (doc_get k d)
  | QOr qs => existsb (forallb (entry_matches d)) qs
  | QAnd qs => forallb (forallb (entry_matches d)) qs
  end.

Definition matches (q : query) (d : doc) : bool := forallb (entry_matches d) q.

(** The store rejects a filter with a pattern that does not compile or
    with an empty [$or] / [$and]. *)
Fixpoint entry_valid (e : entry) : bool :=
  match e with
  | Field _ (CRegex p o) => bool_decide (is_Some (regex_compile p o))
  | Field _ _ => true
  | QOr qs | QAnd qs =>
      match qs with [] => false | _ => forallb (forallb entry_valid) qs end
  end.

Definition query_valid (q : query) : bool := forallb entry_valid q.

(** [list(db[name].find(q))] *)
Definition find (st : Store) (name : string) (q : query) : outcome (list doc) :=
  if query_valid q then Return (filter (λ d, matches q d = true) (coll st name))
  else Raise OperationFailure.

(** [cursor.limit(n)]; a limit of 0 is no limit. *)
Definition limit (n : nat) (ds : list doc) : list doc :=
  match n with O => ds | _ => take n ds end.

Definition find_one (st : Store) (name : string) (q : query) : outcome (option doc) :=
  ds ← find st name q; mret (head ds).

Definition count_documents (st : Store) (name : string) (q : query) : outcome nat :=
  ds ← find st name q; mret (length ds).

Fixpoint remove_first (p : doc → bool) (ds : list doc) : list doc :=
  match ds with
  | [] => []
  | d :: ds' => if p d then ds' else d :: remove_first p ds'
  end.

(** [delete_one] removes the first matching document; a store without one
    is left as it is. *)
Definition delete_one (st : Store) (name : string) (q : query) : outcome Store :=
  if query_valid q then
    Return (if existsb (matches q) (coll st name)
            then set_coll st name (remove_first (matches q) (coll st name))
            else st)
  else Raise OperationFailure.

(** [insert_one] on a dict without an ["_id"] entry: the store assigns a
    fresh identifier and appends the document. *)
Definition insert_one (st : Store) (name : string) (data : dict) : ObjectId * Store :=
  let o := new_oid (next_id st) in
  (o, MkStore (<[name := (coll st name ++ [Doc (Some o) data])%list]> (collections st))
              (N.succ (next_id st))).

Definition insert_many (st : Store) (name : string) (l : list dict) : Store :=
  foldl (λ st data, (insert_one st name data).2) st l.

(** Modelled from the spec: [create_document] of the [database] module,
    which is not part of the sources at hand.  It inserts one record into
    the named collection and returns the new identifier as a string. *)
Definition create_document (st : Store) (name : string) (data : dict) : string * Store :=
  let '(o, st') := insert_one st name data in (ObjectId_str o, st').

End store.

(** ** Schemas ([schemas.py])

    Each model is a record; [model_dump] is the dict of its fields. *)

Definition VStrs (l : list string) : value := VList (VStr <$> l).

Definition get_str (d : dict) (k : string) : option string :=
  match d !! k with
  | Some (VStr s) => Some s
  | _ => None
  end.

Definition get_int (d : dict) (k : string) : option Z :=
  match d !! k with
  | Some (VInt z) => Some z
  | _ => None
  end.

Module Career.
Record t := mk {
  icon : string;
  name_en : string;
  name_te : string;
  short_desc_en : string;
  short_desc_te : string;
  salary_min : Z;
  salary_max : Z;
  education : string;
  job_type : string;
  field : string;
  skills : list string;
  tags : list string;
  growth_path_en : list string;
  growth_path_te : list string
}.

Definition model_dump (c : t) : dict :=
  list_to_map [
    ("icon", VStr (icon c)); ("name_en", VStr (name_en c));
    ("name_te", VStr (name_te c));
    ("short_desc_en", VStr (short_desc_en c));
    ("short_desc_te", VStr (short_desc_te c));
    ("salary_min", VInt (salary_min c)); ("salary_max", VInt (salary_max c));
    ("education", VStr (education c)); ("job_type", VStr (job_type c));
    ("field", VStr (field c)); ("skills", VStrs (skills c));
    ("tags", VStrs (tags c));
    ("growth_path_en", VStrs (growth_path_en c));
    ("growth_path_te", VStrs (growth_path_te c))].
End Career.

Module SavedCareer.
Record t := mk { user_id : string; career_id : string }.

Definition model_dump (s : t) : dict :=
  list_to_map [("user_id", VStr (user_id s)); ("career_id", VStr (career_id s))].
End SavedCareer.

Module TestQuestion.
Record t := mk {
  step : Z;
  question_en : string;
  question_te : string;
  options : list dict
}.

Definition model_dump (q : t) : dict :=
  list_to_map [
    ("step", VInt (step q)); ("question_en", VStr (question_en q));
    ("question_te", VStr (question_te q));
    ("options", VList (VDict <$> options q))].
End TestQuestion.

Module TestSubmission.
Record t := mk { user_id : option string; answers : list string }.
End TestSubmission.

Module TestResult.
Record t := mk { user_id : option string; recommended_ids : list string }.
End TestResult.

Module Counselor.
Record t := mk { name : string; phone : string; district : string }.

Definition model_dump (c : t) : dict :=
  list_to_map [("name", VStr (name c)); ("phone", VStr (phone c));
               ("district", VStr (district c))].
End Counselor.

(** [email] is an [EmailStr]: its syntax is checked when the request body is
    parsed, before the handler runs. *)
Module ContactMessage.
Record t := mk { name : string; email : string; message : string }.

Definition model_dump (m : t) : dict :=
  list_to_map [("name", VStr (name m)); ("email", VStr (email m));
               ("message", VStr (message m))].
End ContactMessage.

(** The summary record of [main.py].  [validate] builds a card from the entries of a dict: every
    field must be present with a value of its type, other entries are
    ignored.  (Values that pydantic would coerce into a field's type, such
    as a numeric string for a salary, do not occur in documents of the
    [Career] schema and are treated as invalid here.) *)
Module CareerCard.
Record t := mk {
  id : string;
  icon : string;
  name_en : string;
  name_te : string;
  short_desc_en : string;
  short_desc_te : string;
  salary_min : Z;
  salary_max : Z;
  education : string;
  job_type : string;
  field : string
}.

Definition parse (d : dict) : option t :=
  id ← get_str d "id";
  icon ← get_str d "icon";
  name_en ← get_str d "name_en";
  name_te ← get_str d "name_te";
  short_desc_en ← get_str d "short_desc_en";
  short_desc_te ← get_str d "short_desc_te";
  salary_min ← get_int d "salary_min";
  salary_max ← get_int d "salary_max";
  education ← get_str d "education";
  job_type ← get_str d "job_type";
  field ← get_str d "field";
  Some (mk id icon name_en name_te short_desc_en short_desc_te
           salary_min salary_max education job_type field).

Definition validate (d : dict) : outcome t :=
  match parse d with
  | Some c => Return c
  | None => Raise ValidationError
  end.

Definition model_dump (c : t) : dict :=
  list_to_map [
    ("id", VStr (id c)); ("icon", VStr (icon c)); ("name_en", VStr (name_en c));
    ("name_te", VStr (name_te c));
    ("short_desc_en", VStr (short_desc_en c));
    ("short_desc_te", VStr (short_desc_te c));
    ("salary_min", VInt (salary_min c)); ("salary_max", VInt (salary_max c));
    ("education", VStr (education c)); ("job_type", VStr (job_type c));
    ("field", VStr (field c))].
End CareerCard.

(** ** Seed data of [main.py] *)

Definition option_dict (key label_en label_te icon : string) : dict :=
  list_to_map [("key", VStr key); ("label_en", VStr label_en);
               ("label_te", VStr label_te); ("icon", VStr icon)].

Definition sample_nurse : Career.t := {|
  Career.icon := "Stethoscope";
  Career.name_en := "Nurse";
  Career.name_te := "నర్స్";
  Career.short_desc_en := "Care for patients in hospitals and clinics.";
  Career.short_desc_te := "ఆస్పత్రుల్లో రోగుల సంరక్షణ.";
  Career.salary_min := 15000;
  Career.salary_max := 40000;
  Career.education := "Diploma/B.Sc Nursing";
  Career.job_type := "Government";
  Career.field := "Healthcare";
  Career.skills := ["Compassion"; "Communication"; "Basic Medical"];
  Career.tags := ["helping"; "people"];
  Career.growth_path_en := ["Nursing Student"; "Staff Nurse"; "Head Nurse"];
  Career.growth_path_te := ["విద్యార్థి నర్స్"; "స్టాఫ్ నర్స్"; "హెడ్ నర్స్"]
|}.

Definition sample_electrician : Career.t := {|
  Career.icon := "Wrench";
  Career.name_en := "Electrician";
  Career.name_te := "ఎలక్ట్రిషియన్";
  Career.short_desc_en := "Install and repair electrical systems.";
  Career.short_desc_te := "విద్యుత్ వ్యవస్థల ఏర్పాటు మరియు మరమ్మత్తులు.";
  Career.salary_min := 12000;
  Career.salary_max := 35000;
  Career.education := "ITI Electrician / Apprenticeship";
  Career.job_type := "Private";
  Career.field := "Trades";
  Career.skills := ["Problem Solving"; "Safety"; "Tools"];
  Career.tags := ["fixing"; "hands-on"];
  Career.growth_path_en := ["Apprentice"; "Technician"; "Contractor"];
  Career.growth_path_te := ["శిక్షణార్థి"; "టెక్నీషియన్"; "కాంట్రాక్టర్"]
|}.

Definition sample_teacher : Career.t := {|
  Career.icon := "PenTool";
  Career.name_en := "Teacher";
  Career.name_te := "ఉపాధ్యాయుడు";
  Career.short_desc_en := "Teach students and guide learning.";
  Career.short_desc_te := "విద్యార్థులకు బోధించడం మరియు మార్గనిర్దేశం.";
  Career.salary_min := 18000;
  Career.salary_max := 50000;
  Career.education := "B.Ed / D.Ed";
  Career.job_type := "Government";
  Career.field := "Education";
  Career.skills := ["Communication"; "Patience"];
  Career.tags := ["teaching"; "helping"];
  Career.growth_path_en := ["Assistant Teacher"; "Teacher"; "Headmaster"];
  Career.growth_path_te := ["సహాయ ఉపాధ్యాయుడు"; "ఉపాధ్యాయుడు"; "హెడ్‌మాస్టర్"]
|}.

Definition sample : list Career.t := [sample_nurse; sample_electrician; sample_teacher].

Definition fallback_question : TestQuestion.t := {|
  TestQuestion.step := 1;
  TestQuestion.question_en := "Which activity do you enjoy most?";
  TestQuestion.question_te := "మీకు ఎక్కువగా ఇష్టమయ్యే చర్య ఏది?";
  TestQuestion.options := [
      option_dict "fix" "Fixing things"
        "వస్తువులు సరిచేయడం" "Wrench";
      option_dict "help" "Helping people"
        "జనాలకు సహాయం చేయడం" "Heart";
      option_dict "teach" "Teaching others"
        "ఇతరులకు బోధించడం" "BookOpen";
      option_dict "create" "Drawing/creative"
        "డ్రాయింగ్/సృజనాత్మక" "PenTool"]
|}.

Definition seed_question_1 : TestQuestion.t := {|
  TestQuestion.step := 1;
  TestQuestion.question_en := "Which activity do you enjoy most?";
  TestQuestion.question_te := "మీకు ఎక్కువగా ఇష్టమయ్యే చర్య ఏది?";
  TestQuestion.options := [
      option_dict "fix" "Fixing things"
        "వస్తువులు సరిచేయడం" "Wrench";
      option_dict "help" "Helping people"
        "జనాలకు సహాయం చేయడం" "Heart";
      option_dict "teach" "Teaching others"
        "ఇతరులకు బోధించడం" "BookOpen";
      option_dict "create" "Drawing/creative"
        "డ్రాయింగ్/సృజనాత్మక" "PenTool"]
|}.

Definition seed_question_2 : TestQuestion.t := {|
  TestQuestion.step := 2;
  TestQuestion.question_en := "Where do you prefer to work?";
  TestQuestion.question_te := "మీకు ఏ పనిస్థలం ఇష్టం?";
  TestQuestion.options := [
      option_dict "out" "Outdoors"
        "బయట" "Trees";
      option_dict "in" "Indoors"
        "లోపల" "Home";
      option_dict "both" "Both"
        "రెండూ" "Sun"]
|}.

Definition seed_question_3 : TestQuestion.t := {|
  TestQuestion.step := 3;
  TestQuestion.question_en := "What matters more?";
  TestQuestion.question_te := "మీకు ఎక్కువ ముఖ్యమైనది?";
  TestQuestion.options := [
      option_dict "pay" "High salary"
        "ఎక్కువ జీతం" "IndianRupee";
      option_dict "secure" "Job security"
        "ఉద్యోగ భద్రత" "Shield";
      option_dict "impact" "Helping society"
        "సమాజానికి సహాయం" "HandHeart"]
|}.

Definition seed_question_4 : TestQuestion.t := {|
  TestQuestion.step := 4;
  TestQuestion.question_en := "Your strength?";
  TestQuestion.question_te := "మీ బలం?";
  TestQuestion.options := [
      option_dict "hands" "Hands-on work"
        "చేతులతో పని" "Hammer";
      option_dict "people" "People skills"
        "మనుషులతో సామర్థ్యం" "Users";
      option_dict "logic" "Logic/Math"
        "తార్కికం/గణితం" "FunctionSquare";
      option_dict "art" "Art/Design"
        "కళ/డిజైన్" "Palette"]
|}.

Definition seed_question_5 : TestQuestion.t := {|
  TestQuestion.step := 5;
  TestQuestion.question_en := "Preferred employer?";
  TestQuestion.question_te := "ఇష్టమైన ఉద్యోగం?";
  TestQuestion.options := [
      option_dict "govt" "Government"
        "ప్రభుత్వ" "Building2";
      option_dict "private" "Private"
        "ప్రైవేట్" "Briefcase";
      option_dict "self" "Self-employed"
        "స్వయం ఉపాధి" "Store"]
|}.

Definition question_seeds : list TestQuestion.t :=
  [seed_question_1; seed_question_2; seed_question_3; seed_question_4; seed_question_5].

Definition counselor_seeds : list Counselor.t :=
  [{| Counselor.name := "Anitha R."; Counselor.phone := "90000 11111"; Counselor.district := "Anantapur" |};
   {| Counselor.name := "Srinivas K."; Counselor.phone := "90000 22222"; Counselor.district := "Kurnool" |}].

(** ** Handlers of [main.py]

    A handler takes the store handle [db] and its request parameters; a
    handler that writes returns the handle afterwards next to its outcome. *)

Inductive questions :=
| Models (l : list TestQuestion.t)
| Docs (l : list doc).

Definition tag_map : gmap string (list string) :=
  list_to_map [
    ("fix", ["hands-on"; "Trades"]);
    ("help", ["helping"; "Healthcare"]);
    ("teach", ["teaching"; "Education"]);
    ("create", ["creative"; "Design"]);
    ("logic", ["logic"; "Engineering"]);
    ("govt", ["Government"]);
    ("private", ["Private"]);
    ("self", ["Self-employed"])].

Section handlers.
Context {engine : Engine}.

(** [doc["id"] = str(doc.pop("_id"))] *)
Definition to_str_id (d : doc) : outcome doc :=
  match doc_id d with
  | None => Raise (KeyError "_id")
  | Some o => Return (Doc None (<["id" := VStr (ObjectId_str o)]> (doc_fields d)))
  end.

(** [d.pop("_id", None)] *)
Definition pop_id (d : doc) : doc := Doc None (doc_fields d).

Definition seed_data (db : option Store) : outcome unit * option Store :=
  match db with
  | None => (Return (), db)
  | Some st =>
      match count_documents st "career" [] with
      | Raise e => (Raise e, db)
      | Return n =>
          if Nat.eqb n 0
          then (Return (), Some (insert_many st "career" (Career.model_dump <$> sample)))
          else (Return (), db)
      end
  end.

(** The entries a parameter adds to the filter when it is truthy. *)
Definition when_str (o : option string) (f : string → query) : query :=
  match o with
  | Some s => if str_truthy s then f s else []
  | None => []
  end.

(** The [query] dict of [list_careers]. *)
Definition list_careers_query (q field edu : option string) : query :=
  (when_str q (λ q,
     [QOr [[Field "name_en" (CRegex q "i")];
           [Field "name_te" (CRegex q "i")];
           [Field "field" (CRegex q "i")];
           [Field "tags" (CIn [SStr q])]]])
   ++ when_str field (λ f, [Field "field" (CEq (SStr f))])
   ++ when_str edu (λ e, [Field "education" (CRegex e "i")]))%list.

Definition career_card (d : doc) : outcome CareerCard.t :=
  d' ← to_str_id d; CareerCard.validate (doc_fields d').

Definition list_careers (db : option Store) (q field edu : option string)
  : outcome (list CareerCard.t) :=
  match db with
  | None => Return []
  | Some st =>
      docs ← find st "career" (list_careers_query q field edu);
      mapM career_card (limit 60 docs)
  end.

Definition career_detail (db : option Store) (career_id : string) : outcome doc :=
  match db with
  | None => Raise (HTTPException 500 "Database not available")
  | Some st =>
      match ObjectId_of_str career_id with
      | None => Raise (InvalidId career_id)
      | Some o =>
          found ← find_one st "career" [Field "_id" (CEq (SOid o))];
          match found with
          | Some d => if doc_truthy d then to_str_id d
                      else Raise (HTTPException 404 "Not found")
          | None => Raise (HTTPException 404 "Not found")
          end
      end
  end.

(** The filter of [save_career]'s existence check. *)
Definition saved_pair_query (item : SavedCareer.t) : query :=
  [Field "user_id" (CEq (SStr (SavedCareer.user_id item)));
   Field "career_id" (CEq (SStr (SavedCareer.career_id item)))].

Definition save_career (db : option Store) (item : SavedCareer.t)
  : outcome dict * option Store :=
  match db with
  | None => (Raise (HTTPException 500 "Database not available"), db)
  | Some st =>
      match find_one st "savedcareer" (saved_pair_query item) with
      | Raise e => (Raise e, db)
      | Return existing =>
          if from_option doc_truthy false existing
          then (Return {["status" := VStr "exists"]}, db)
          else
            let '(_id, st') :=
              create_document st "savedcareer" (SavedCareer.model_dump item) in
            (Return (<["id" := VStr _id]> {["status" := VStr "ok"]}), Some st')
      end
  end.

Definition list_saved (db : option Store) (user_id : string) : outcome (list doc) :=
  match db with
  | None => Return []
  | Some st =>
      docs ← find st "savedcareer" [Field "user_id" (CEq (SStr user_id))];
      mapM to_str_id docs
  end.

(** The filter of [delete_saved]. *)
Definition saved_delete_query (o : ObjectId) (user_id : string) : query :=
  [Field "_id" (CEq (SOid o)); Field "user_id" (CEq (SStr user_id))].

Definition delete_saved (db : option Store) (user_id saved_id : string)
  : outcome dict * option Store :=
  match db with
  | None => (Raise (HTTPException 500 "Database not available"), db)
  | Some st =>
      match ObjectId_of_str saved_id with
      | None => (Raise (InvalidId saved_id), db)
      | Some o =>
          match delete_one st "savedcareer" (saved_delete_query o user_id) with
          | Raise e => (Raise e, db)
          | Return st' => (Return {["status" := VStr "deleted"]}, Some st')
          end
      end
  end.

Definition get_questions (db : option Store) : outcome questions * option Store :=
  match db with
  | None => (Return (Models [fallback_question]), db)
  | Some st =>
      match find st "testquestion" [] with
      | Raise e => (Raise e, db)
      | Return found =>
          match sort_by "step" found with
          | [] =>
              let st' := insert_many st "testquestion"
                           (TestQuestion.model_dump <$> question_seeds) in
              match find st' "testquestion" [] with
              | Raise e => (Raise e, Some st')
              | Return found' =>
                  (Return (Docs (pop_id <$> sort_by "step" found')), Some st')
              end
          | docs => (Return (Docs (pop_id <$> docs)), db)
          end
      end
  end.

(** The dict one answer appends to [filters]; none for a key that is not
    in [tag_map]. *)
Definition answer_filter (a : string) : outcome (list query) :=
  match tag_map !! a with
  | None => Return []
  | Some val =>
      if Nat.eqb (length val) 1 then
        match val !! 0%nat with
        | Some v0 => Return [[Field "job_type" (CEq (SStr v0))]]
        | None => Raise IndexError
        end
      else
        match val !! 0%nat, val !! 1%nat with
        | Some v0, Some v1 =>
            Return [[QOr [[Field "tags" (CIn [SStr v0])];
                          [Field "field" (CEq (SStr v1))]]]]
        | _, _ => Raise IndexError
        end
  end.

Definition submit_filters (answers : list string) : outcome (list query) :=
  fs ← mapM answer_filter answers; mret (concat fs).

(** [{"$and": filters} if filters else {}] *)
Definition submit_query (filters : list query) : query :=
  match filters with
  | [] => []
  | _ => [QAnd filters]
  end.

(** [str(d.get("_id"))] *)
Definition str_get_id (d : doc) : string :=
  match doc_id d with
  | Some o => ObjectId_str o
  | None => "None"
  end.

(** [payload.user_id or "guest"] *)
Definition or_guest (user_id : option string) : string :=
  match user_id with
  | Some s => if str_truthy s then s else "guest"
  | None => "guest"
  end.

Definition submit_record (payload : TestSubmission.t) (ids : list string) : dict :=
  list_to_map [
    ("user_id", VStr (or_guest (TestSubmission.user_id payload)));
    ("answers", VStrs (TestSubmission.answers payload));
    ("recommended_ids", VStrs ids)].

(** [docs = ... if db else []] and [if db: create_document(...)] test the
    truth value of the handle: [None] is false, and a present handle gives
    [db_bool] both times.  When the test raises, nothing has been looked up
    or stored. *)
Definition submit_test (db : option Store) (payload : TestSubmission.t)
  : outcome TestResult.t * option Store :=
  match submit_filters (TestSubmission.answers payload) with
  | Raise e => (Raise e, db)
  | Return filters =>
      let query := submit_query filters in
      match db with
      | None => (Return (TestResult.mk (TestSubmission.user_id payload) []), db)
      | Some st =>
          match db_bool with
          | Raise e => (Raise e, db)
          | Return false =>
              (Return (TestResult.mk (TestSubmission.user_id payload) []), db)
          | Return true =>
              match find st "career" query with
              | Raise e => (Raise e, db)
              | Return found =>
                  let docs := limit 6 found in
                  let ids := str_get_id <$> docs in
                  let '(_, st') :=
                    create_document st "testresult" (submit_record payload ids) in
                  (Return (TestResult.mk (TestSubmission.user_id payload) ids),
                   Some st')
              end
          end
      end
  end.

Definition counselors (db : option Store) : outcome (list doc) * option Store :=
  match db with
  | None => (Return [], db)
  | Some st =>
      match find st "counselor" [] with
      | Raise e => (Raise e, db)
      | Return found =>
          match limit 100 found with
          | [] =>
              let st' := insert_many st "counselor"
                           (Counselor.model_dump <$> counselor_seeds) in
              match find st' "counselor" [] with
              | Raise e => (Raise e, Some st')
              | Return found' => (Return (pop_id <$> limit 100 found'), Some st')
              end
          | docs => (Return (pop_id <$> docs), db)
          end
      end
  end.

(** [if db] as in [submit_test]. *)
Definition contact (db : option Store) (msg : ContactMessage.t)
  : outcome dict * option Store :=
  match db with
  | Some st =>
      match db_bool with
      | Raise e => (Raise e, db)
      | Return false => (Return {["status" := VStr "received"]}, db)
      | Return true =>
          let '(_, st') :=
            create_document st "contactmessage" (ContactMessage.model_dump msg) in
          (Return {["status" := VStr "received"]}, Some st')
      end
  | None => (Return {["status" := VStr "received"]}, db)
  end.

End handlers.

(** ** A small engine to run the handlers on

    Patterns made of literal characters, [.] and escaped punctuation, with
    no option or with [i]; a pattern that uses another operator is outside
    this fragment and is rejected.  Text is matched bytewise, which agrees
    with the store on ASCII text.  Documents are ordered by the integer
    under the key, those without one first.  Its handle is true, as a
    substitute store's is; [pymongo_engine] is the same store behind a
    handle whose truth value raises, as that of a pymongo [Database] does. *)

Inductive atom :=
| Lit (c : ascii)
| AnyChar.

Definition is_meta (c : ascii) : bool :=
  existsb (Ascii.eqb c) (String.list_ascii_of_string "\^$.|?*+()[]{}").

Fixpoint parse_pattern (p : string) : option (list atom) :=
  match p with
  | EmptyString => Some []
  | String c p' =>
      if Ascii.eqb c "." then (AnyChar ::.) <$> parse_pattern p'
      else if Ascii.eqb c "\" then
        match p' with
        | String c2 p'' =>
            if is_meta c2 then (Lit c2 ::.) <$> parse_pattern p'' else None
        | EmptyString => None
        end
      else if is_meta c then None
      else (Lit c ::.) <$> parse_pattern p'
  end.

Definition lower (c : ascii) : ascii :=
  let n := N_of_ascii c in
  if ((65 <=? n) && (n <=? 90))%N then ascii_of_N (n + 32) else c.

Definition atom_matches (ci : bool) (a : atom) (c : ascii) : bool :=
  match a with
  | AnyChar => negb (Ascii.eqb c "010")
  | Lit l => if ci then Ascii.eqb (lower l) (lower c) else Ascii.eqb l c
  end.

Fixpoint match_here (ci : bool) (atoms : list atom) (s : string) : bool :=
  match atoms, s with
  | [], _ => true
  | a :: atoms', String c s' => atom_matches ci a c && match_here ci atoms' s'
  | _ :: _, EmptyString => false
  end.

Fixpoint search (ci : bool) (atoms : list atom) (s : string) : bool :=
  match_here ci atoms s
  || match s with
     | String _ s' => search ci atoms s'
     | EmptyString => false
     end.

Definition small_regex_compile (pattern options : string) : option (string → bool) :=
  if String.eqb options "" then search false <$> parse_pattern pattern
  else if String.eqb options "i" then search true <$> parse_pattern pattern
  else None.

Definition int_key (k : string) (d : doc) : Z :=
  match doc_get k d with
  | Some (VInt z) => z + 1
  | _ => 0
  end.

Fixpoint insert_sorted (k : string) (d : doc) (ds : list doc) : list doc :=
  match ds with
  | [] => [d]
  | d' :: ds' =>
      if (int_key k d <? int_key k d')%Z then d :: ds
      else d' :: insert_sorted k d ds'
  end.

Definition small_sort_by (k : string) (ds : list doc) : list doc :=
  foldr (insert_sorted k) [] ds.

Definition small_engine : Engine :=
  {| regex_compile := small_regex_compile; sort_by := small_sort_by;
     db_bool := Return true |}.

Definition pymongo_engine : Engine :=
  {| regex_compile := small_regex_compile; sort_by := small_sort_by;
     db_bool := Raise NotImplementedError |}.

(** The careers collection after startup on an empty store. *)
Definition seeded_store : Store :=
  insert_many empty_store "career" (Career.model_dump <$> sample).

(** Case-insensitive substring match on text, as the catalog search is
    described: [q] occurs in [s] up to the case of ASCII letters. *)
Fixpoint ci_prefix (q s : string) : bool :=
  match q, s with
  | EmptyString, _ => true
  | String a q', String b s' => Ascii.eqb (lower a) (lower b) && ci_prefix q' s'
  | String _ _, EmptyString => false
  end.

Fixpoint ci_substring (q s : string) : bool :=
  ci_prefix q s
  || match s with
     | String _ s' => ci_substring q s'
     | EmptyString => false
     end.

(** ** Vocabulary of the properties *)

(** A counselor record as [counselors] returns it: no ["_id"] entry. *)
Definition returned_counselor : doc :=
  Doc None (Counselor.model_dump (Counselor.mk "Anitha R." "90000 11111" "Anantapur")).

(** The table of the quiz mapper as the specification gives it: an answer
    key stands for a tag-or-field predicate or for a job type. *)
Inductive pred :=
| TagOrField (tag field : string)
| JobType (job_type : string).

Definition quiz_table (a : string) : option pred :=
  if String.eqb a "fix" then Some (TagOrField "hands-on" "Trades")
  else if String.eqb a "help" then Some (TagOrField "helping" "Healthcare")
  else if String.eqb a "teach" then Some (TagOrField "teaching" "Education")
  else if String.eqb a "create" then Some (TagOrField "creative" "Design")
  else if String.eqb a "logic" then Some (TagOrField "logic" "Engineering")
  else if String.eqb a "govt" then Some (JobType "Government")
  else if String.eqb a "private" then Some (JobType "Private")
  else if String.eqb a "self" then Some (JobType "Self-employed")
  else None.

(** The filter dict that states a predicate. *)
Definition pred_filter (p : pred) : query :=
  match p with
  | TagOrField tag field =>
      [QOr [[Field "tags" (CIn [SStr tag])]; [Field "field" (CEq (SStr field))]]]
  | JobType job_type => [Field "job_type" (CEq (SStr job_type))]
  end.

(** What a predicate says of a career. *)
Definition career_satisfies (c : Career.t) (p : pred) : bool :=
  match p with
  | TagOrField tag field =>
      bool_decide (tag ∈ Career.tags c) || String.eqb field (Career.field c)
  | JobType job_type => String.eqb job_type (Career.job_type c)
  end.

(** The documents [insert_many] appends: one per dict, with consecutive
    fresh identifiers. *)
Fixpoint fresh_docs (n : N) (l : list dict) : list doc :=
  match l with
  | [] => []
  | data :: l' => Doc (Some (new_oid n)) data :: fresh_docs (N.succ n) l'
  end.

(** A store with one saved career of user "u1". *)
Definition saved_store : Store :=
  (create_document seeded_store "savedcareer"
     (SavedCareer.model_dump (SavedCareer.mk "u1" "000000000000000000000001"))).2.

(** Every stored document carries an identifier the store assigned. *)
Definition store_wf (st : Store) : Prop :=
  ∀ name d, d ∈ coll st name → ∃ o, doc_id d = Some o ∧ length o = 12%nat.

(** A returned record: no internal identifier, and a non-empty string under
    ["id"]. *)
Definition public_record (d : doc) : Prop :=
  doc_id d = None ∧ ∃ s, doc_fields d !! "id" = Some (VStr s) ∧ s ≠ "".

(** The tag list of a stored career contains [q]. *)
Definition has_tag (q : string) (d : doc) : Prop :=
  ∃ v, doc_fields d !! "tags" = Some v
       ∧ (v = VStr q ∨ ∃ l, v = VList l ∧ VStr q ∈ l).

(** A document holds the string [u] under the key [k]: the entry is [u] or,
    for an array, has [u] among its elements (as the store reads an
    equality on a field). *)
Definition entry_is (k u : string) (d : doc) : bool :=
  match doc_fields d !! k with
  | Some (VStr s) => String.eqb u s
  | Some (VList l) =>
      existsb (λ v, match v with VStr s => String.eqb u s | _ => false end) l
  | _ => false
  end.

(** A saved record of the pair (user_id, career_id). *)
Definition saved_for (user_id career_id : string) (d : doc) : bool :=
  entry_is "user_id" user_id d && entry_is "career_id" career_id d.

(** A store with two saved careers, of users "u1" and "u2". *)
Definition two_saved_store : Store :=
  (create_document saved_store "savedcareer"
     (SavedCareer.model_dump (SavedCareer.mk "u2" "000000000000000000000002"))).2.

(** A stored career: the dump of a [Career] under a store-assigned
    identifier, and the card the catalog shows for it. *)
Definition career_doc (p : ObjectId * Career.t) : doc :=
  Doc (Some p.1) (Career.model_dump p.2).

Definition card_of (p : ObjectId * Career.t) : CareerCard.t :=
  CareerCard.mk (ObjectId_str p.1)
    (Career.icon p.2) (Career.name_en p.2) (Career.name_te p.2)
    (Career.short_desc_en p.2) (Career.short_desc_te p.2)
    (Career.salary_min p.2) (Career.salary_max p.2)
    (Career.education p.2) (Career.job_type p.2) (Career.field p.2).

(** A document as a read path returns it: the identifier moved to ["id"]. *)
Definition with_str_id (o : ObjectId) (d : doc) : doc :=
  Doc None (<["id" := VStr (ObjectId_str o)]> (doc_fields d)).

(** The same for a document whose identifier is read off the document. *)
Definition public_view (d : doc) : doc :=
  Doc None (<["id" := VStr (str_get_id d)]> (doc_fields d)).

(** The identifier the store assigns next is not in use in a collection. *)
Definition next_id_unused (st : Store) (name : string) : Prop :=
  Forall (λ d, doc_id d ≠ Some (new_oid (next_id st))) (coll st name).

(** * Properties *)

(** ** Identifiers *)

Lemma hexlify_length (bs : list byte) : String.length (hexlify bs) = 2 * length bs.
Proof. induction bs as [|b bs IH]; simpl; [done | lia]. Qed.

Lemma hexlify_nonempty (bs : list byte) : bs ≠ [] → hexlify bs ≠ "".
Proof. by destruct bs. Qed.

Lemma be_bytes_length (len : nat) (x : N) : length (be_bytes len x) = len.
Proof.
  revert x; induction len as [|len IH]; intros x; simpl; [done |].
  rewrite length_app, IH; simpl; lia.
Qed.

Lemma new_oid_length (n : N) : length (new_oid n) = 12.
Proof. apply be_bytes_length. Qed.

(** ** Identifier translation *)

(** C7, as stated, fails: on a document without an internal identifier
    [to_str_id] raises [KeyError] instead of leaving the document as it is,
    and so does a second application after a first one succeeded. *)
Lemma to_str_id_not_idempotent :
  to_str_id returned_counselor = Raise (KeyError "_id")
  ∧ to_str_id returned_counselor ≠ Return returned_counselor
  ∧ (to_str_id (Doc (Some (new_oid 0)) ∅) ≫= to_str_id) = Raise (KeyError "_id").
Proof. split; [reflexivity | split; [discriminate | reflexivity]]. Qed.

(** C7, amended: [to_str_id] returns exactly on the documents that carry an
    internal identifier; the result has no internal identifier, has the
    identifier's string under ["id"] and the other entries as they were.  On
    a document without an internal identifier it raises [KeyError], so a
    second application to its own result always raises. *)
Theorem to_str_id_requires_id (d : doc) :
  match to_str_id d with
  | Return d' =>
      ∃ o, doc_id d = Some o
           ∧ doc_id d' = None
           ∧ doc_fields d' = <["id" := VStr (ObjectId_str o)]> (doc_fields d)
           ∧ to_str_id d' = Raise (KeyError "_id")
  | Raise e => doc_id d = None ∧ e = KeyError "_id"
  end.
Proof.
  unfold to_str_id. destruct (doc_id d) as [o|] eqn:Hid; simpl.
  - exists o. by repeat split.
  - by split.
Qed.

(** ** Degraded mode *)

(** C6: without a store the catalog list is empty, the question list is the
    one hardcoded fallback question, and the career detail fails with a
    server error. *)
Theorem degraded_mode {engine : Engine} :
  (∀ q field edu, list_careers None q field edu = Return [])
  ∧ get_questions None = (Return (Models [fallback_question]), None)
  ∧ (∀ career_id, ∃ e, career_detail None career_id = Raise e
                       ∧ e = HTTPException 500 "Database not available"
                       ∧ server_error e = true ∧ client_error e = false).
Proof.
  split; [done | split; [done |]].
  intros career_id. by eexists.
Qed.

(** ** Malformed identifiers *)

(** C8, as stated, fails: a string that [ObjectId] rejects makes both
    handlers raise [InvalidId], which is no client error. *)
Lemma malformed_identifier_not_client_error :
  ObjectId_of_str "not-an-id" = None
  ∧ (∃ e, career_detail (engine := small_engine) (Some seeded_store) "not-an-id" = Raise e
          ∧ client_error e = false)
  ∧ (∃ e, (delete_saved (engine := small_engine) (Some seeded_store) "u1" "not-an-id").1
            = Raise e
          ∧ client_error e = false).
Proof. split; [reflexivity | split; by eexists]. Qed.

(** C8, amended: for an identifier string that cannot be parsed, career
    detail lookup and saved-record deletion raise the parser's [InvalidId]
    unhandled, which surfaces as a server error and not as a client error;
    the store is left as it was. *)
Theorem malformed_identifier_unhandled {engine : Engine}
    (st : Store) (user_id s : string) :
  ObjectId_of_str s = None →
  career_detail (Some st) s = Raise (InvalidId s)
  ∧ delete_saved (Some st) user_id s = (Raise (InvalidId s), Some st)
  ∧ client_error (InvalidId s) = false
  ∧ server_error (InvalidId s) = true.
Proof.
  intros Hbad. unfold career_detail, delete_saved. rewrite Hbad. done.
Qed.

Lemma malformed_identifier_unhandled_witness :
  ObjectId_of_str "123" = None
  ∧ career_detail (engine := small_engine) (Some seeded_store) "123"
    = Raise (InvalidId "123")
  ∧ delete_saved (engine := small_engine) (Some seeded_store) "u1" "123"
    = (Raise (InvalidId "123"), Some seeded_store)
  ∧ client_error (InvalidId "123") = false
  ∧ server_error (InvalidId "123") = true.
Proof.
  split; [reflexivity |].
  apply (malformed_identifier_unhandled (engine := small_engine) seeded_store "u1" "123").
  reflexivity.
Defined.

(** ** Store operations *)

Lemma coll_insert_one_eq (st : Store) (name : string) (data : dict) :
  coll (insert_one st name data).2 name
  = (coll st name ++ [Doc (Some (new_oid (next_id st))) data])%list.
Proof. unfold insert_one, coll; simpl. by rewrite lookup_insert_eq. Qed.

Lemma coll_insert_one_ne (st : Store) (name name' : string) (data : dict) :
  name ≠ name' → coll (insert_one st name data).2 name' = coll st name'.
Proof. intros Hne. unfold insert_one, coll; simpl. by rewrite lookup_insert_ne. Qed.

Lemma coll_create_document_eq (st : Store) (name : string) (data : dict) :
  coll (create_document st name data).2 name
  = (coll st name ++ [Doc (Some (new_oid (next_id st))) data])%list.
Proof. apply coll_insert_one_eq. Qed.

Lemma create_document_fst (st : Store) (name : string) (data : dict) :
  (create_document st name data).1 = ObjectId_str (new_oid (next_id st)).
Proof. reflexivity. Qed.

Lemma existsb_value_is_str (s : string) (l : list string) :
  existsb (value_is (SStr s)) (VStr <$> l) = bool_decide (s ∈ l).
Proof.
  induction l as [|x l IH].
  - symmetry. apply bool_decide_eq_false_2, not_elem_of_nil.
  - cbn [fmap list_fmap existsb value_is]. rewrite IH.
    destruct (String.eqb_spec s x) as [->|Hne]; cbn [orb].
    + symmetry. apply bool_decide_eq_true_2. left.
    + apply bool_decide_ext. rewrite elem_of_cons.
      split; [auto | intros [?|?]; [done | auto]].
Qed.

Lemma forallb_fmap_true {A B} (f : B → bool) (g : A → B) (l : list A) :
  (∀ x, f (g x) = true) → forallb f (g <$> l) = true.
Proof.
  intros Hf. induction l as [|x l IH]; [done |].
  cbn [fmap list_fmap forallb]. by rewrite Hf, IH.
Qed.

(** ** The quiz mapping *)

Lemma answer_filter_table (a : string) :
  answer_filter a = Return (from_option (λ p, [pred_filter p]) [] (quiz_table a)).
Proof.
  unfold answer_filter, quiz_table, tag_map; simpl list_to_map.
  repeat match goal with
         | |- context [String.eqb a ?k] =>
             destruct (String.eqb_spec a k) as [->|?]; [reflexivity |]
         end.
  rewrite !lookup_insert_ne by congruence. by rewrite lookup_empty.
Qed.

Lemma mapM_answer_filter (answers : list string) :
  mapM answer_filter answers
  = Return ((λ a, from_option (λ p, [pred_filter p]) [] (quiz_table a)) <$> answers).
Proof.
  induction answers as [|a answers IH]; [done |].
  cbn [mapM]. rewrite answer_filter_table, IH. done.
Qed.

Lemma concat_answer_filters (answers : list string) :
  concat ((λ a, from_option (λ p, [pred_filter p]) [] (quiz_table a)) <$> answers)
  = pred_filter <$> omap quiz_table answers.
Proof.
  induction answers as [|a answers IH]; [done |].
  cbn [fmap list_fmap concat omap list_omap]. rewrite IH.
  by destruct (quiz_table a).
Qed.

Lemma submit_filters_table (answers : list string) :
  submit_filters answers = Return (pred_filter <$> omap quiz_table answers).
Proof.
  unfold submit_filters. rewrite mapM_answer_filter.
  change (Return (concat ((λ a, from_option (λ p, [pred_filter p]) [] (quiz_table a))
                            <$> answers))
          = Return (pred_filter <$> omap quiz_table answers)).
  by rewrite concat_answer_filters.
Qed.

Section quiz.
Context {engine : Engine}.

Lemma pred_filter_valid (p : pred) : query_valid (pred_filter p) = true.
Proof. by destruct p. Qed.

Lemma submit_query_valid (preds : list pred) :
  query_valid (submit_query (pred_filter <$> preds)) = true.
Proof.
  destruct preds as [|p preds]; [done |].
  unfold submit_query, query_valid. change (pred_filter <$> p :: preds)
    with (pred_filter p :: (pred_filter <$> preds)).
  cbn [forallb entry_valid]. rewrite andb_true_r.
  change (forallb (forallb entry_valid) (pred_filter <$> p :: preds) = true).
  apply forallb_fmap_true, pred_filter_valid.
Qed.

Lemma cond_in_strs (t : string) (l : list string) :
  cond_matches (CIn [SStr t]) (Some (VStrs l)) = bool_decide (t ∈ l).
Proof.
  rewrite <- existsb_value_is_str.
  unfold cond_matches, field_any, VStrs. cbn [existsb value_is orb].
  induction l as [|x l IH]; [done |].
  cbn [fmap list_fmap existsb value_is]. by rewrite IH, orb_false_r.
Qed.

Lemma cond_eq_str (a b : string) :
  cond_matches (CEq (SStr a)) (Some (VStr b)) = String.eqb a b.
Proof. unfold cond_matches, field_any. cbn [value_is]. apply orb_false_r. Qed.

Lemma pred_filter_career (p : pred) (o : option ObjectId) (c : Career.t) :
  matches (pred_filter p) (Doc o (Career.model_dump c)) = career_satisfies c p.
Proof.
  destruct p as [tag field|job_type]; unfold matches; cbn [pred_filter forallb].
  - cbn [entry_matches existsb forallb].
    change (doc_get "tags" (Doc o (Career.model_dump c)))
      with (Some (VStrs (Career.tags c))).
    change (doc_get "field" (Doc o (Career.model_dump c)))
      with (Some (VStr (Career.field c))).
    rewrite cond_in_strs, cond_eq_str.
    by rewrite !andb_true_r, !orb_false_r.
  - cbn [entry_matches].
    change (doc_get "job_type" (Doc o (Career.model_dump c)))
      with (Some (VStr (Career.job_type c))).
    rewrite cond_eq_str. apply andb_true_r.
Qed.

Lemma submit_query_career (preds : list pred) (o : option ObjectId) (c : Career.t) :
  matches (submit_query (pred_filter <$> preds)) (Doc o (Career.model_dump c))
  = forallb (career_satisfies c) preds.
Proof.
  destruct preds as [|p preds]; [done |].
  unfold submit_query. change (pred_filter <$> p :: preds)
    with (pred_filter p :: (pred_filter <$> preds)).
  unfold matches at 1. cbn [forallb entry_matches]. rewrite andb_true_r.
  change (forallb (forallb (entry_matches (Doc o (Career.model_dump c))))
            (pred_filter <$> (p :: preds)) = forallb (career_satisfies c) (p :: preds)).
  induction (p :: preds) as [|p' l IH]; [done |].
  cbn [fmap list_fmap forallb]. rewrite <- IH. f_equal. apply pred_filter_career.
Qed.

(** What [submit_test] does on a present store, by the truth value of the
    handle. *)
Lemma submit_test_present (st : Store) (payload : TestSubmission.t) :
  let q := submit_query (pred_filter <$> omap quiz_table (TestSubmission.answers payload)) in
  let ids := str_get_id <$> take 6 (filter (λ d, matches q d = true) (coll st "career")) in
  submit_test (Some st) payload
  = match db_bool with
    | Return true =>
        (Return (TestResult.mk (TestSubmission.user_id payload) ids),
         Some (create_document st "testresult" (submit_record payload ids)).2)
    | Return false =>
        (Return (TestResult.mk (TestSubmission.user_id payload) []), Some st)
    | Raise e => (Raise e, Some st)
    end.
Proof.
  intros q ids. unfold submit_test.
  rewrite submit_filters_table. fold q.
  destruct db_bool as [[|]|e]; [| done | done].
  unfold find. unfold q at 1. rewrite submit_query_valid. done.
Qed.

End quiz.

(** C1: the filter of a quiz submission is the conjunction, in answer
    order, of the predicates of the answer keys found in the table; other
    keys add nothing, and with no recognized key the filter is the
    unrestricted one.  The recommended identifiers are those of the first
    six matching careers when the handle tests true in [if db]; when it
    tests false there are none, and when the test raises so does the
    submission.  For ["fix"; "govt"] the filter says: tags contain
    "hands-on" or field is "Trades", and job type is "Government". *)
Theorem submit_filter_is_conjunction {engine : Engine}
    (st : Store) (payload : TestSubmission.t) :
  let preds : list pred := omap quiz_table (TestSubmission.answers payload) in
  let q := submit_query (pred_filter <$> preds) in
  let found := filter (λ d, matches q d = true) (coll st "career") in
  submit_filters (TestSubmission.answers payload) = Return (pred_filter <$> preds)
  ∧ match preds with
    | [] => q = []
    | _ :: _ => q = [QAnd (pred_filter <$> preds)]
    end
  ∧ (∀ d, matches [] d = true)
  ∧ (∀ o c, matches q (Doc o (Career.model_dump c))
            = forallb (career_satisfies c) preds)
  ∧ (∃ st', submit_test (Some st) payload
            = match db_bool with
              | Return true =>
                  (Return (TestResult.mk (TestSubmission.user_id payload)
                             (str_get_id <$> take 6 found)),
                   Some st')
              | Return false =>
                  (Return (TestResult.mk (TestSubmission.user_id payload) []),
                   Some st)
              | Raise e => (Raise e, Some st)
              end)
  ∧ (length (str_get_id <$> take 6 found) ≤ 6)%nat
  ∧ submit_filters ["fix"; "govt"]
    = Return [[QOr [[Field "tags" (CIn [SStr "hands-on"])];
                    [Field "field" (CEq (SStr "Trades"))]]];
              [Field "job_type" (CEq (SStr "Government"))]]
  ∧ (∀ o c, matches (submit_query (pred_filter <$> omap quiz_table ["fix"; "govt"]))
              (Doc o (Career.model_dump c))
            = (bool_decide ("hands-on" ∈ Career.tags c)
               || String.eqb "Trades" (Career.field c))
              && String.eqb "Government" (Career.job_type c)).
Proof.
  intros preds q found.
  split; [apply submit_filters_table |].
  split; [by destruct preds |].
  split; [done |].
  split; [intros o c; apply submit_query_career |].
  split; [eexists; apply submit_test_present |].
  split; [rewrite length_fmap, length_take; lia |].
  split; [reflexivity |].
  intros o c. rewrite submit_query_career.
  change (omap quiz_table ["fix"; "govt"])
    with [TagOrField "hands-on" "Trades"; JobType "Government"].
  cbn [forallb career_satisfies]. by rewrite andb_true_r.
Qed.

(** The mapping on the seeded careers: the nurse and the teacher are the
    government careers that help; no seeded career is both in the trades
    and in government; an unknown key restricts nothing. *)
Example submit_test_seeded :
  (submit_test (engine := small_engine) (Some seeded_store)
     (TestSubmission.mk (Some "u1") ["help"; "govt"])).1
  = Return (TestResult.mk (Some "u1")
              ["000000000000000000000000"; "000000000000000000000002"])
  ∧ (submit_test (engine := small_engine) (Some seeded_store)
       (TestSubmission.mk None ["fix"; "govt"])).1
    = Return (TestResult.mk None [])
  ∧ (submit_test (engine := small_engine) (Some seeded_store)
       (TestSubmission.mk None ["unknown_key"])).1
    = Return (TestResult.mk None
                ["000000000000000000000000"; "000000000000000000000001";
                 "000000000000000000000002"]).
Proof. repeat split; vm_compute; reflexivity. Qed.

(** With a handle that tests true, an empty-string user_id is stored as
    "guest", in exactly the record and the store an absent user_id gives,
    while the returned result carries the empty string. *)
Lemma submit_empty_user_id_is_guest {engine : Engine}
    (st : Store) (answers : list string) :
  db_bool = Return true →
  ∃ ids st' record,
    submit_test (Some st) (TestSubmission.mk (Some "") answers)
    = (Return (TestResult.mk (Some "") ids), Some st')
    ∧ submit_test (Some st) (TestSubmission.mk None answers)
      = (Return (TestResult.mk None ids), Some st')
    ∧ coll st' "testresult"
      = (coll st "testresult" ++ [Doc (Some (new_oid (next_id st))) record])%list
    ∧ record !! "user_id" = Some (VStr "guest")
    ∧ record !! "answers" = Some (VStrs answers)
    ∧ record !! "recommended_ids" = Some (VStrs ids).
Proof.
  intros Htrue.
  pose proof (submit_test_present st (TestSubmission.mk (Some "") answers)) as Hempty.
  pose proof (submit_test_present st (TestSubmission.mk None answers)) as Habsent.
  cbv zeta in Hempty, Habsent. rewrite Htrue in Hempty, Habsent.
  cbn [TestSubmission.answers TestSubmission.user_id] in Hempty, Habsent.
  eexists _, _, (submit_record (TestSubmission.mk None answers) _).
  split; [exact Hempty |].
  split; [exact Habsent |].
  split; [apply coll_create_document_eq |].
  repeat split; reflexivity.
Qed.

(** C10, on the code: behind the handle of pymongo, whose truth value
    raises, a submission on a present store raises at [if db], whatever the
    user_id and the answers: no result is returned and no history record is
    stored.  The claim's "guest" record is never written. *)
Theorem submit_test_raises_on_pymongo_handle
    (st : Store) (payload : TestSubmission.t) :
  submit_test (engine := pymongo_engine) (Some st) payload
  = (Raise NotImplementedError, Some st)
  ∧ submit_test (engine := pymongo_engine) (Some seeded_store)
      (TestSubmission.mk (Some "") ["help"; "govt"])
    = (Raise NotImplementedError, Some seeded_store)
  ∧ coll seeded_store "testresult" = [].
Proof.
  split; [| split; reflexivity].
  apply (submit_test_present (engine := pymongo_engine)).
Qed.

(** ** Bootstrap *)

Lemma fresh_docs_fields (n : N) (l : list dict) : doc_fields <$> fresh_docs n l = l.
Proof. revert n; induction l as [|x l IH]; intros n; [done |]. simpl. by rewrite IH. Qed.

Lemma fresh_docs_length (n : N) (l : list dict) : length (fresh_docs n l) = length l.
Proof. revert n; induction l as [|x l IH]; intros n; [done |]. simpl. by rewrite IH. Qed.

Lemma coll_insert_many_eq (st : Store) (name : string) (l : list dict) :
  coll (insert_many st name l) name = (coll st name ++ fresh_docs (next_id st) l)%list.
Proof.
  unfold insert_many. revert st; induction l as [|x l IH]; intros st.
  - simpl. by rewrite app_nil_r.
  - cbn [foldl fresh_docs]. rewrite IH, coll_insert_one_eq.
    by rewrite <- app_assoc.
Qed.

Lemma coll_insert_many_ne (st : Store) (name name' : string) (l : list dict) :
  name ≠ name' → coll (insert_many st name l) name' = coll st name'.
Proof.
  intros Hne. unfold insert_many. revert st; induction l as [|x l IH]; intros st.
  - done.
  - cbn [foldl]. by rewrite IH, coll_insert_one_ne.
Qed.

Section bootstrap.
Context {engine : Engine}.

Lemma filter_matches_nil (ds : list doc) :
  filter (λ d, matches [] d = true) ds = ds.
Proof.
  induction ds as [|d ds IH]; [done |].
  rewrite filter_cons_True by done. by rewrite IH.
Qed.

Lemma count_documents_all (st : Store) (name : string) :
  count_documents st name [] = Return (length (coll st name)).
Proof.
  unfold count_documents, find. cbn [query_valid forallb].
  by rewrite filter_matches_nil.
Qed.

(** C4: bootstrap on a non-empty careers collection changes nothing, so a
    second run after any first run is a no-op; started on an empty careers
    collection, two runs leave exactly the three seed records. *)
Theorem seed_data_idempotent (st : Store) :
  ∃ st1,
    seed_data (Some st) = (Return (), Some st1)
    ∧ seed_data (Some st1) = (Return (), Some st1)
    ∧ match coll st "career" with
      | [] => doc_fields <$> coll st1 "career" = Career.model_dump <$> sample
              ∧ length (coll st1 "career") = 3
      | _ :: _ => st1 = st
      end.
Proof.
  unfold seed_data. rewrite count_documents_all.
  destruct (coll st "career") as [|d ds] eqn:Hc.
  - cbn [length Nat.eqb]. eexists. split; [reflexivity |].
    rewrite count_documents_all, coll_insert_many_eq, Hc.
    cbn [app]. rewrite fresh_docs_length, fresh_docs_fields.
    split; [reflexivity | split; reflexivity].
  - cbn [length Nat.eqb]. exists st.
    rewrite count_documents_all, Hc. by cbn [length Nat.eqb].
Qed.

End bootstrap.

(** ** Saved careers *)

Lemma coll_set_coll_eq (st : Store) (name : string) (ds : list doc) :
  coll (set_coll st name ds) name = ds.
Proof. unfold coll, set_coll; simpl. by rewrite lookup_insert_eq. Qed.

Lemma coll_set_coll_ne (st : Store) (name name' : string) (ds : list doc) :
  name ≠ name' → coll (set_coll st name ds) name' = coll st name'.
Proof. intros Hne. unfold coll, set_coll; simpl. by rewrite lookup_insert_ne. Qed.

Lemma remove_first_split (p : doc → bool) (ds : list doc) :
  existsb p ds = true →
  ∃ l1 d l2, ds = (l1 ++ d :: l2)%list ∧ p d = true
             ∧ Forall (λ x, p x = false) l1
             ∧ remove_first p ds = (l1 ++ l2)%list.
Proof.
  induction ds as [|x ds IH]; [done |].
  cbn [existsb remove_first]. destruct (p x) eqn:Hx.
  - intros _. by exists [], x, ds.
  - cbn [orb]. intros Hex. destruct (IH Hex) as (l1 & d & l2 & -> & Hd & Hl1 & Hrm).
    exists (x :: l1), d, l2. rewrite Hrm. repeat split; [done |].
    by constructor.
Qed.

Lemma existsb_false_Forall (p : doc → bool) (ds : list doc) :
  existsb p ds = false ↔ Forall (λ d, p d = false) ds.
Proof.
  induction ds as [|x ds IH]; cbn [existsb].
  - split; [constructor | done].
  - rewrite orb_false_iff, IH, Forall_cons. done.
Qed.

Section saved.
Context {engine : Engine}.

Lemma saved_pair_query_valid (item : SavedCareer.t) :
  query_valid (saved_pair_query item) = true.
Proof. done. Qed.

Lemma saved_pair_query_matches (item : SavedCareer.t) (o : option ObjectId) :
  matches (saved_pair_query item) (Doc o (SavedCareer.model_dump item)) = true.
Proof.
  unfold matches, saved_pair_query. cbn [forallb entry_matches].
  change (doc_get "user_id" (Doc o (SavedCareer.model_dump item)))
    with (Some (VStr (SavedCareer.user_id item))).
  change (doc_get "career_id" (Doc o (SavedCareer.model_dump item)))
    with (Some (VStr (SavedCareer.career_id item))).
  by rewrite !cond_eq_str, !String.eqb_refl.
Qed.

(** What the deletion filter says of a saved record: its identifier is the
    given one and its owner is the given user. *)
Lemma saved_delete_query_matches (o o' : ObjectId) (user_id : string)
    (s : SavedCareer.t) :
  matches (saved_delete_query o user_id) (Doc (Some o') (SavedCareer.model_dump s))
  = bool_decide (o = o') && String.eqb user_id (SavedCareer.user_id s).
Proof.
  unfold matches, saved_delete_query. cbn [forallb entry_matches].
  change (doc_get "user_id" (Doc (Some o') (SavedCareer.model_dump s)))
    with (Some (VStr (SavedCareer.user_id s))).
  change (doc_get "_id" (Doc (Some o') (SavedCareer.model_dump s)))
    with (Some (VOid o')).
  rewrite cond_eq_str, andb_true_r. f_equal.
  unfold cond_matches, field_any. cbn [value_is]. apply orb_false_r.
Qed.

Lemma cond_eq_entry_is (k u : string) (d : doc) :
  k ≠ "_id" → cond_matches (CEq (SStr u)) (doc_get k d) = entry_is k u d.
Proof.
  intros Hk. unfold doc_get, entry_is.
  destruct (String.eqb_spec k "_id") as [->|_]; [done |].
  destruct (doc_fields d !! k) as [v|]; [| done].
  unfold cond_matches, field_any.
  destruct v as [|z|s|o|l|m]; cbn [value_is orb]; try done.
  apply orb_false_r.
Qed.

(** What the existence check of [save_career] asks of a record: that it is
    a saved record of the item's pair. *)
Lemma saved_pair_query_spec (item : SavedCareer.t) (d : doc) :
  matches (saved_pair_query item) d
  = saved_for (SavedCareer.user_id item) (SavedCareer.career_id item) d.
Proof.
  unfold matches, saved_pair_query, saved_for. cbn [forallb entry_matches].
  rewrite !cond_eq_entry_is by done. by rewrite andb_true_r.
Qed.

(** On a record of the schema, it is the record of exactly this pair. *)
Lemma saved_for_dump (u c : string) (o : option ObjectId) (s : SavedCareer.t) :
  saved_for u c (Doc o (SavedCareer.model_dump s))
  = String.eqb u (SavedCareer.user_id s) && String.eqb c (SavedCareer.career_id s).
Proof. reflexivity. Qed.

(** C3: saving a pair of which the collection holds no record inserts one
    record, the dump of the item under a new identifier, and answers "ok"
    with this identifier; saving it again answers "exists" and leaves the
    store as it is.  Afterwards exactly one record of the pair is
    persisted, the other records are as they were, and no other collection
    has changed. *)
Theorem save_career_twice (st : Store) (item : SavedCareer.t) :
  Forall (λ d, saved_for (SavedCareer.user_id item) (SavedCareer.career_id item) d
               = false)
    (coll st "savedcareer") →
  ∃ o st1,
    save_career (Some st) item
    = (Return (<["id" := VStr (ObjectId_str o)]> {["status" := VStr "ok"]}), Some st1)
    ∧ coll st1 "savedcareer"
      = (coll st "savedcareer" ++ [Doc (Some o) (SavedCareer.model_dump item)])%list
    ∧ (∀ name, name ≠ "savedcareer" → coll st1 name = coll st name)
    ∧ save_career (Some st1) item = (Return {["status" := VStr "exists"]}, Some st1)
    ∧ filter (λ d, saved_for (SavedCareer.user_id item) (SavedCareer.career_id item) d
                   = true)
        (coll st1 "savedcareer")
      = [Doc (Some o) (SavedCareer.model_dump item)].
Proof.
  intros Hnew.
  set (d := Doc (Some (new_oid (next_id st))) (SavedCareer.model_dump item)).
  assert (filter (λ x, matches (saved_pair_query item) x = true)
            (coll st "savedcareer") = []) as Hnone.
  { induction Hnew as [|x l Hx _ IH]; [done |].
    rewrite filter_cons_False; [exact IH |].
    rewrite saved_pair_query_spec, Hx. discriminate. }
  assert (saved_for (SavedCareer.user_id item) (SavedCareer.career_id item) d = true)
    as Hd by (unfold d; by rewrite saved_for_dump, !String.eqb_refl).
  assert (filter (λ x, saved_for (SavedCareer.user_id item)
                         (SavedCareer.career_id item) x = true)
            (coll st "savedcareer" ++ [d])%list = [d]) as Hone.
  { rewrite filter_app, (filter_cons_True _ d) by done.
    replace (filter _ (coll st "savedcareer")) with (@nil doc); [done |].
    clear Hnone. induction Hnew as [|x l Hx _ IH]; [done |].
    rewrite filter_cons_False; [exact IH |]. rewrite Hx. discriminate. }
  exists (new_oid (next_id st)),
         (create_document st "savedcareer" (SavedCareer.model_dump item)).2.
  split.
  { unfold save_career, find_one, find. rewrite saved_pair_query_valid, Hnone. done. }
  split; [apply coll_create_document_eq |].
  split; [intros name Hne; by apply coll_insert_one_ne |].
  split; [| by rewrite coll_create_document_eq].
  unfold save_career, find_one, find.
  rewrite saved_pair_query_valid, coll_create_document_eq. fold d.
  rewrite filter_app, Hnone, (filter_cons_True _ d)
    by (by rewrite saved_pair_query_spec).
  done.
Qed.

End saved.

Lemma save_career_twice_witness :
  Forall (λ d, saved_for "u1" "000000000000000000000002" d = false)
    (coll two_saved_store "savedcareer")
  ∧ length (coll two_saved_store "savedcareer") = 2%nat
  ∧ ∃ o st1,
      save_career (engine := small_engine) (Some two_saved_store)
        (SavedCareer.mk "u1" "000000000000000000000002")
      = (Return (<["id" := VStr (ObjectId_str o)]> {["status" := VStr "ok"]}), Some st1)
      ∧ length (coll st1 "savedcareer") = 3%nat
      ∧ save_career (engine := small_engine) (Some st1)
          (SavedCareer.mk "u1" "000000000000000000000002")
        = (Return {["status" := VStr "exists"]}, Some st1)
      ∧ filter (λ d, saved_for "u1" "000000000000000000000002" d = true)
          (coll st1 "savedcareer")
        = [Doc (Some o)
             (SavedCareer.model_dump (SavedCareer.mk "u1" "000000000000000000000002"))].
Proof.
  assert (Forall (λ d, saved_for "u1" "000000000000000000000002" d = false)
            (coll two_saved_store "savedcareer")) as Hnew
    by (repeat constructor).
  split; [exact Hnew |]. split; [reflexivity |].
  destruct (save_career_twice (engine := small_engine) two_saved_store
              (SavedCareer.mk "u1" "000000000000000000000002") Hnew)
    as (o & st1 & Hfirst & Hcoll & _ & Hsecond & Hone).
  exists o, st1. split; [exact Hfirst |]. split; [| split; [exact Hsecond | exact Hone]].
  rewrite Hcoll. reflexivity.
Defined.

Section deletion.
Context {engine : Engine}.

Lemma saved_delete_query_valid (o : ObjectId) (user_id : string) :
  query_valid (saved_delete_query o user_id) = true.
Proof. done. Qed.

(** The filter holds of a document exactly when its identifier is the given
    one and its ["user_id"] entry is (or, for an array, contains) the given
    user. *)
Lemma saved_delete_query_spec (o : ObjectId) (user_id : string) (d : doc) :
  matches (saved_delete_query o user_id) d = true
  ↔ doc_id d = Some o
    ∧ ∃ v, doc_fields d !! "user_id" = Some v
           ∧ field_any (value_is (SStr user_id)) v = true.
Proof.
  unfold matches, saved_delete_query. cbn [forallb entry_matches].
  change (doc_get "_id" d) with (VOid <$> doc_id d).
  change (doc_get "user_id" d) with (doc_fields d !! "user_id").
  rewrite andb_true_r, andb_true_iff.
  assert (cond_matches (CEq (SOid o)) (VOid <$> doc_id d) = true ↔ doc_id d = Some o)
    as ->.
  { destruct (doc_id d) as [o'|]; cbn [fmap option_fmap option_map cond_matches].
    - unfold field_any. cbn [value_is]. rewrite orb_false_r, bool_decide_eq_true.
      split; congruence.
    - split; discriminate. }
  apply and_iff_compat_l.
  destruct (doc_fields d !! "user_id") as [v|]; cbn [cond_matches].
  - split; [intros Hv; by exists v | intros (v' & [= <-] & Hv); done].
  - split; [discriminate | intros (v' & [=] & _)].
Qed.

(** C5: deletion of a saved record, for an identifier that parses.  The
    handler answers "deleted" in every case and touches no other collection.
    A record is removed only if it matches both the identifier and the
    user: when some record matches, exactly one record is removed, the first
    that matches, and all others stay in place; when none matches, for
    instance because the user is not the owner, the store is unchanged. *)
Theorem delete_saved_isolation (st : Store) (user_id saved_id : string) (o : ObjectId) :
  ObjectId_of_str saved_id = Some o →
  ∃ st',
    delete_saved (Some st) user_id saved_id
    = (Return {["status" := VStr "deleted"]}, Some st')
    ∧ (∀ name, name ≠ "savedcareer" → coll st' name = coll st name)
    ∧ (Forall (λ d, matches (saved_delete_query o user_id) d = false)
         (coll st "savedcareer") → st' = st)
    ∧ (Exists (λ d, matches (saved_delete_query o user_id) d = true)
         (coll st "savedcareer") →
       ∃ l1 d l2,
         coll st "savedcareer" = (l1 ++ d :: l2)%list
         ∧ doc_id d = Some o
         ∧ (∃ v, doc_fields d !! "user_id" = Some v
                 ∧ field_any (value_is (SStr user_id)) v = true)
         ∧ coll st' "savedcareer" = (l1 ++ l2)%list)
    ∧ (∀ o' s, Doc (Some o') (SavedCareer.model_dump s) ∈ coll st "savedcareer" →
               o' ≠ o ∨ SavedCareer.user_id s ≠ user_id →
               Doc (Some o') (SavedCareer.model_dump s) ∈ coll st' "savedcareer").
Proof.
  intros Hparse. unfold delete_saved, delete_one.
  rewrite Hparse, saved_delete_query_valid.
  set (q := saved_delete_query o user_id).
  destruct (existsb (matches q) (coll st "savedcareer")) eqn:Hex.
  - destruct (remove_first_split _ _ Hex) as (l1 & d & l2 & Hds & Hd & Hl1 & Hrm).
    eexists. split; [reflexivity |].
    split; [intros name Hne; by apply coll_set_coll_ne |].
    split.
    { intros Hall. apply existsb_false_Forall in Hall. congruence. }
    split.
    { intros _. exists l1, d, l2. rewrite coll_set_coll_eq.
      apply saved_delete_query_spec in Hd as [Hid Hu]. done. }
    intros o' s Hin Hother. rewrite coll_set_coll_eq, Hrm.
    rewrite Hds in Hin. apply elem_of_app in Hin as [Hin|Hin];
      [apply elem_of_app; by left |].
    apply elem_of_cons in Hin as [Heq|Hin];
      [| apply elem_of_app; by right].
    exfalso. subst d. unfold q in Hd.
    rewrite saved_delete_query_matches in Hd.
    apply andb_true_iff in Hd as [Ho Hu].
    apply bool_decide_eq_true in Ho. apply String.eqb_eq in Hu.
    destruct Hother; congruence.
  - exists st. split; [reflexivity |].
    split; [done |]. split; [done |].
    split; [| done].
    intros Hsome. apply existsb_false_Forall in Hex.
    apply Exists_exists in Hsome as (d & Hin & Hd).
    rewrite Forall_forall in Hex. specialize (Hex d Hin). congruence.
Qed.

End deletion.

Lemma delete_saved_isolation_witness :
  ObjectId_of_str "000000000000000000000003" = Some (new_oid 3)
  ∧ (delete_saved (engine := small_engine) (Some saved_store) "u2"
       "000000000000000000000003").2 = Some saved_store
  ∧ ∃ st', delete_saved (engine := small_engine) (Some saved_store) "u1"
             "000000000000000000000003"
           = (Return {["status" := VStr "deleted"]}, Some st')
           ∧ coll st' "savedcareer" = [].
Proof.
  split; [reflexivity |].
  split.
  - destruct (delete_saved_isolation (engine := small_engine) saved_store "u2"
                "000000000000000000000003" (new_oid 3) eq_refl)
      as (st' & Hret & _ & Hnone & _).
    rewrite Hret. cbn [snd]. f_equal. apply Hnone.
    repeat constructor.
  - destruct (delete_saved_isolation (engine := small_engine) saved_store "u1"
                "000000000000000000000003" (new_oid 3) eq_refl)
      as (st' & Hret & _ & _ & Hsome & _).
    exists st'. split; [exact Hret |].
    destruct Hsome as (l1 & d & l2 & Hds & _ & _ & Hrm).
    { apply Exists_cons_hd. reflexivity. }
    rewrite Hrm. change (coll saved_store "savedcareer")
      with [Doc (Some (new_oid 3))
              (SavedCareer.model_dump (SavedCareer.mk "u1" "000000000000000000000001"))]
      in Hds.
    destruct l1 as [|x l1]; cbn [app] in Hds.
    + injection Hds as _ Hl2. by rewrite <- Hl2.
    + exfalso. injection Hds as _ Hnil. by destruct l1.
Defined.

(** ** Lists of results *)

Lemma mapM_Return_inv {A B} (f : A → outcome B) (l : list A) (r : list B) :
  mapM f l = Return r →
  length r = length l ∧ ∀ b, b ∈ r → ∃ a, a ∈ l ∧ f a = Return b.
Proof.
  revert r; induction l as [|a l IH]; intros r.
  - intros [= <-]. split; [done |]. intros b Hb. by apply elem_of_nil in Hb.
  - cbn [mapM]. destruct (f a) as [b0|e] eqn:Hfa; [| discriminate].
    destruct (mapM f l) as [r0|e]; [| discriminate].
    intros [= <-]. destruct (IH r0 eq_refl) as [Hlen Hall].
    split; [simpl; by rewrite Hlen |].
    intros b [->|Hb]%elem_of_cons.
    + exists a. split; [left | done].
    + destruct (Hall b Hb) as (a' & Ha' & Hfa'). exists a'. split; [by right | done].
Qed.

Lemma mapM_Return_total {A B} (f : A → outcome B) (l : list A) :
  Forall (λ a, ∃ b, f a = Return b) l → ∃ r, mapM f l = Return r.
Proof.
  induction 1 as [|a l [b Hb] _ [r Hr]]; [by exists [] |].
  exists (b :: r). cbn [mapM]. by rewrite Hb, Hr.
Qed.

Lemma value_is_str_true (s : string) (v : value) :
  value_is (SStr s) v = true → v = VStr s.
Proof. destruct v; try discriminate. cbn. by intros ->%String.eqb_eq. Qed.

Lemma get_str_Some (d : dict) (k s : string) :
  get_str d k = Some s → d !! k = Some (VStr s).
Proof.
  unfold get_str. destruct (d !! k) as [[]|]; try discriminate. by intros [= ->].
Qed.

(** ** Identifiers of returned records *)

Lemma store_wf_empty : store_wf empty_store.
Proof. intros name d Hd. unfold coll, empty_store in Hd; simpl in Hd.
  rewrite lookup_empty in Hd. by apply elem_of_nil in Hd. Qed.

Lemma store_wf_insert_one (st : Store) (name : string) (data : dict) :
  store_wf st → store_wf (insert_one st name data).2.
Proof.
  intros Hwf name' d. destruct (decide (name = name')) as [<-|Hne].
  - rewrite coll_insert_one_eq. intros [Hd|Hd]%elem_of_app; [by eapply Hwf |].
    apply list_elem_of_singleton in Hd as ->. eexists. split; [done |].
    apply new_oid_length.
  - rewrite coll_insert_one_ne by done. apply Hwf.
Qed.

Lemma store_wf_insert_many (st : Store) (name : string) (l : list dict) :
  store_wf st → store_wf (insert_many st name l).
Proof.
  unfold insert_many. revert st; induction l as [|x l IH]; intros st Hwf; [done |].
  cbn [foldl]. by apply IH, store_wf_insert_one.
Qed.

Lemma store_wf_seeded : store_wf seeded_store.
Proof. apply store_wf_insert_many, store_wf_empty. Qed.

Lemma to_str_id_public (d d' : doc) :
  (∃ o, doc_id d = Some o ∧ length o = 12%nat) →
  to_str_id d = Return d' → public_record d'.
Proof.
  intros (o & Hid & Hlen). unfold to_str_id. rewrite Hid. intros [= <-].
  split; [done |]. exists (ObjectId_str o). split; [apply lookup_insert_eq |].
  apply hexlify_nonempty. by destruct o.
Qed.

Lemma CareerCard_parse_Some (d : dict) (c : CareerCard.t) :
  CareerCard.parse d = Some c →
  d !! "id" = Some (VStr (CareerCard.id c))
  ∧ d !! "name_en" = Some (VStr (CareerCard.name_en c))
  ∧ d !! "name_te" = Some (VStr (CareerCard.name_te c))
  ∧ d !! "education" = Some (VStr (CareerCard.education c))
  ∧ d !! "field" = Some (VStr (CareerCard.field c)).
Proof.
  unfold CareerCard.parse.
  destruct (get_str d "id") eqn:Hid; [| discriminate].
  destruct (get_str d "icon"); [| discriminate].
  destruct (get_str d "name_en") eqn:Hname_en; [| discriminate].
  destruct (get_str d "name_te") eqn:Hname_te; [| discriminate].
  destruct (get_str d "short_desc_en"); [| discriminate].
  destruct (get_str d "short_desc_te"); [| discriminate].
  destruct (get_int d "salary_min"); [| discriminate].
  destruct (get_int d "salary_max"); [| discriminate].
  destruct (get_str d "education") eqn:Heducation; [| discriminate].
  destruct (get_str d "job_type"); [| discriminate].
  destruct (get_str d "field") eqn:Hfield; [| discriminate].
  intros [= <-]. cbn [CareerCard.id CareerCard.name_en CareerCard.name_te
                       CareerCard.education CareerCard.field].
  repeat split; by apply get_str_Some.
Qed.

(** A card comes from a document with an identifier and shows the
    document's entries. *)
Lemma career_card_inv (d : doc) (card : CareerCard.t) :
  career_card d = Return card →
  (∃ o, doc_id d = Some o ∧ CareerCard.id card = ObjectId_str o)
  ∧ doc_fields d !! "name_en" = Some (VStr (CareerCard.name_en card))
  ∧ doc_fields d !! "name_te" = Some (VStr (CareerCard.name_te card))
  ∧ doc_fields d !! "education" = Some (VStr (CareerCard.education card))
  ∧ doc_fields d !! "field" = Some (VStr (CareerCard.field card)).
Proof.
  unfold career_card, to_str_id. destruct (doc_id d) as [o|]; [| discriminate].
  cbn [mbind outcome_bind doc_fields]. unfold CareerCard.validate.
  destruct (CareerCard.parse _) as [c|] eqn:Hparse; [| discriminate].
  intros [= <-].
  apply CareerCard_parse_Some in Hparse as (Hid & Hname_en & Hname_te & Hedu & Hfield).
  rewrite lookup_insert_eq in Hid.
  rewrite lookup_insert_ne in Hname_en, Hname_te, Hedu, Hfield by done.
  split; [exists o; split; [done | congruence] | done].
Qed.

(** The counselor list on a store without counselors. *)
Lemma counselors_eq_seeds {engine : Engine} (st : Store) :
  coll st "counselor" = [] →
  (counselors (Some st)).1
  = Return (pop_id <$> fresh_docs (next_id st) (Counselor.model_dump <$> counselor_seeds)).
Proof.
  intros Hc. unfold counselors, find. cbn [query_valid forallb].
  rewrite filter_matches_nil, Hc. cbn [limit take].
  rewrite filter_matches_nil, coll_insert_many_eq, Hc. reflexivity.
Qed.

(** C9, as stated, fails: the records of the counselor list have no ["id"]
    entry. *)
Lemma counselors_records_have_no_id :
  ∃ d ds, (counselors (engine := small_engine) (Some seeded_store)).1 = Return (d :: ds)
          ∧ doc_id d = None
          ∧ doc_fields d !! "id" = None.
Proof.
  eexists _, _. split; [apply counselors_eq_seeds; reflexivity |].
  split; reflexivity.
Qed.

Section records.
Context {engine : Engine}.

Lemma find_Return (st : Store) (name : string) (q : query) (ds : list doc) :
  find st name q = Return ds →
  query_valid q = true ∧ ds = filter (λ d, matches q d = true) (coll st name).
Proof. unfold find. destruct (query_valid q); [| discriminate]. by intros [= <-]. Qed.

Lemma elem_of_limit (n : nat) (ds : list doc) (d : doc) : d ∈ limit n ds → d ∈ ds.
Proof. destruct n; [done |]. apply subseteq_take. Qed.

Lemma length_limit_le (n : nat) (ds : list doc) : n ≠ 0%nat → (length (limit n ds) ≤ n)%nat.
Proof. destruct n; [done |]. intros _. cbn [limit]. rewrite length_take. lia. Qed.

(** C9, amended: on a store whose documents carry store-assigned
    identifiers, every record of the career list, of the career detail and
    of the saved list carries a non-empty string [id] and no internal
    identifier; the saved list is always returned.  The records of the
    counselor list carry no internal identifier (and get no [id]). *)
Theorem returned_records_carry_id (st : Store) :
  store_wf st →
  (∀ q field edu cards,
     list_careers (Some st) q field edu = Return cards →
     ∀ card, card ∈ cards →
       CareerCard.id card ≠ ""
       ∧ CareerCard.model_dump card !! "id" = Some (VStr (CareerCard.id card))
       ∧ CareerCard.model_dump card !! "_id" = None)
  ∧ (∀ career_id d, career_detail (Some st) career_id = Return d → public_record d)
  ∧ (∀ user_id, ∃ ds, list_saved (Some st) user_id = Return ds
                      ∧ ∀ d, d ∈ ds → public_record d)
  ∧ (∃ ds db', counselors (Some st) = (Return ds, db') ∧ ∀ d, d ∈ ds → doc_id d = None).
Proof.
  intros Hwf. split; [| split; [| split]].
  - intros q field edu cards Hret card Hcard. unfold list_careers in Hret.
    destruct (find st "career" _) as [docs|e] eqn:Hfind; [| discriminate].
    cbn [mbind outcome_bind] in Hret.
    apply find_Return in Hfind as [_ ->].
    apply mapM_Return_inv in Hret as [_ Hall].
    destruct (Hall card Hcard) as (d & Hd & Hcardd).
    apply elem_of_limit, list_elem_of_filter in Hd as [_ Hd].
    destruct (Hwf _ _ Hd) as (o & Hid & Hlen).
    apply career_card_inv in Hcardd as [(o' & Hid' & Hstr) _].
    split; [| split; reflexivity].
    rewrite Hstr. apply hexlify_nonempty.
    assert (o' = o) as -> by congruence. by destruct o.
  - intros career_id d. unfold career_detail.
    destruct (ObjectId_of_str career_id) as [o|]; [| discriminate].
    unfold find_one. destruct (find st "career" _) as [docs|e] eqn:Hfind; [| discriminate].
    cbn [mbind outcome_bind mret outcome_ret].
    apply find_Return in Hfind as [_ ->].
    destruct (head _) as [d0|] eqn:Hhead; [| discriminate].
    destruct (doc_truthy d0); [| discriminate].
    apply to_str_id_public. apply (Hwf "career").
    apply head_Some_elem_of, list_elem_of_filter in Hhead. tauto.
  - intros user_id. unfold list_saved, find. cbn [query_valid forallb entry_valid].
    cbn [mbind outcome_bind].
    set (docs := filter _ _).
    assert (Forall (λ d, ∃ o, doc_id d = Some o ∧ length o = 12%nat) docs) as Hdocs.
    { apply Forall_forall. intros d [_ Hd]%list_elem_of_filter. by apply (Hwf "savedcareer"). }
    destruct (mapM_Return_total to_str_id docs) as [ds Hds].
    { eapply Forall_impl; [exact Hdocs |]. intros d (o & Hid & _).
      unfold to_str_id. rewrite Hid. by eexists. }
    exists ds. split; [done |]. intros d' Hd'.
    apply mapM_Return_inv in Hds as [_ Hall].
    destruct (Hall d' Hd') as (d & Hd & Hto).
    rewrite Forall_forall in Hdocs. apply (to_str_id_public d); [by apply Hdocs | done].
  - unfold counselors, find. cbn [query_valid forallb].
    destruct (limit 100 _) as [|d0 docs];
      eexists _, _; (split; [reflexivity |]);
      intros d (d1 & -> & _)%list_elem_of_fmap; reflexivity.
Qed.

End records.

Lemma returned_records_carry_id_witness :
  store_wf seeded_store
  ∧ ∃ d, career_detail (engine := small_engine) (Some seeded_store)
           "000000000000000000000001" = Return d
         ∧ public_record d.
Proof.
  split; [exact store_wf_seeded |].
  destruct (returned_records_carry_id (engine := small_engine) seeded_store
              store_wf_seeded) as (_ & Hdetail & _).
  eexists. split; [reflexivity |].
  apply (Hdetail "000000000000000000000001"). reflexivity.
Defined.

(** ** Catalog search *)

Section catalog.
Context {engine : Engine}.

Lemma matches_app (q1 q2 : query) (d : doc) :
  matches (q1 ++ q2)%list d = matches q1 d && matches q2 d.
Proof. apply forallb_app. Qed.

Lemma when_str_truthy (s : string) (f : string → query) :
  s ≠ "" → when_str (Some s) f = f s.
Proof.
  intros Hs. unfold when_str, str_truthy.
  destruct (String.eqb_spec s "") as [->|_]; done.
Qed.

Lemma cond_regex_str (p o s : string) :
  cond_matches (CRegex p o) (Some (VStr s)) = true →
  ∃ m, regex_compile p o = Some m ∧ m s = true.
Proof.
  unfold cond_matches, field_any, regex_is. rewrite orb_false_r.
  destruct (regex_compile p o) as [m|]; [| discriminate]. intros Hm. by exists m.
Qed.

Lemma cond_in_tag (q : string) (d : doc) :
  cond_matches (CIn [SStr q]) (doc_get "tags" d) = true → has_tag q d.
Proof.
  change (doc_get "tags" d) with (doc_fields d !! "tags").
  unfold cond_matches, has_tag. destruct (doc_fields d !! "tags") as [v|]; [| discriminate].
  unfold field_any. cbn [existsb]. rewrite orb_false_r.
  intros [Hv|Hv]%orb_true_iff; exists v; (split; [done |]).
  - left. by apply value_is_str_true.
  - right. destruct v as [| | | |l|]; try discriminate. exists l. split; [done |].
    apply existsb_exists in Hv as (x & Hx & Hxq). rewrite orb_false_r in Hxq.
    apply value_is_str_true in Hxq as ->. by apply list_elem_of_In.
Qed.

(** C2, amended: a returned card comes from a stored career that satisfies
    every supplied (non-empty) condition: its field is exactly [field], its
    education text matches [edu] as a case-insensitive regular expression,
    and one of name_en, name_te and field matches [q] as a case-insensitive
    regular expression or the tag list contains [q].  Without parameters
    the filter holds of every career.  At most 60 cards are returned. *)
Theorem list_careers_sound (st : Store) (q field edu : option string)
    (cards : list CareerCard.t) :
  list_careers (Some st) q field edu = Return cards →
  (length cards ≤ 60)%nat
  ∧ (∀ card, card ∈ cards →
       ∃ d, d ∈ coll st "career" ∧ career_card d = Return card
            ∧ (∀ f, field = Some f → f ≠ "" → CareerCard.field card = f)
            ∧ (∀ e, edu = Some e → e ≠ "" →
                 ∃ m, regex_compile e "i" = Some m
                      ∧ m (CareerCard.education card) = true)
            ∧ (∀ q', q = Some q' → q' ≠ "" →
                 ∃ m, regex_compile q' "i" = Some m
                      ∧ (m (CareerCard.name_en card) = true
                         ∨ m (CareerCard.name_te card) = true
                         ∨ m (CareerCard.field card) = true
                         ∨ has_tag q' d)))
  ∧ list_careers_query None None None = []
  ∧ (∀ d, matches (list_careers_query None None None) d = true).
Proof.
  intros Hret. unfold list_careers in Hret.
  destruct (find st "career" _) as [docs|e] eqn:Hfind; [| discriminate].
  cbn [mbind outcome_bind] in Hret.
  apply find_Return in Hfind as [Hvalid ->].
  apply mapM_Return_inv in Hret as [Hlen Hall].
  split; [rewrite Hlen; by apply length_limit_le |].
  split; [| done].
  intros card Hcard. destruct (Hall card Hcard) as (d & Hd & Hcardd).
  apply elem_of_limit, list_elem_of_filter in Hd as [Hm Hd].
  exists d. split; [done |]. split; [done |].
  apply career_card_inv in Hcardd as (_ & Hname_en & Hname_te & Hedu & Hfield).
  unfold list_careers_query in Hm, Hvalid.
  rewrite !matches_app in Hm. apply andb_true_iff in Hm as [Hq Hm].
  apply andb_true_iff in Hm as [Hf He].
  split; [| split].
  - intros f -> Hne. rewrite when_str_truthy in Hf by done.
    unfold matches in Hf. cbn [forallb entry_matches] in Hf.
    change (doc_get "field" d) with (doc_fields d !! "field") in Hf.
    rewrite Hfield, cond_eq_str, andb_true_r in Hf.
    by apply String.eqb_eq in Hf.
  - intros e -> Hne. rewrite when_str_truthy in He by done.
    unfold matches in He. cbn [forallb entry_matches] in He.
    change (doc_get "education" d) with (doc_fields d !! "education") in He.
    rewrite Hedu, andb_true_r in He. by apply cond_regex_str.
  - intros q' -> Hne. rewrite when_str_truthy in Hq, Hvalid by done.
    unfold query_valid in Hvalid. rewrite forallb_app in Hvalid.
    apply andb_true_iff in Hvalid as [Hvalid _].
    cbn [forallb entry_valid] in Hvalid.
    apply andb_true_iff in Hvalid as [Hvalid _].
    apply andb_true_iff in Hvalid as [Hvalid _].
    apply andb_true_iff in Hvalid as [Hvalid _].
    apply bool_decide_eq_true in Hvalid as [m Hcompile].
    exists m. split; [done |].
    unfold matches in Hq. cbn [forallb existsb entry_matches] in Hq.
    change (doc_get "name_en" d) with (doc_fields d !! "name_en") in Hq.
    change (doc_get "name_te" d) with (doc_fields d !! "name_te") in Hq.
    change (doc_get "field" d) with (doc_fields d !! "field") in Hq.
    rewrite Hname_en, Hname_te, Hfield in Hq.
    rewrite !andb_true_r in Hq.
    apply orb_true_iff in Hq as [Hq|Hq];
      [| apply orb_true_iff in Hq as [Hq|Hq];
         [| apply orb_true_iff in Hq as [Hq|Hq];
            [| apply orb_true_iff in Hq as [Hq|Hq]; [| discriminate]]]].
    + apply cond_regex_str in Hq as (m' & Hm' & Hq). left. congruence.
    + apply cond_regex_str in Hq as (m' & Hm' & Hq). right; left. congruence.
    + apply cond_regex_str in Hq as (m' & Hm' & Hq). right; right; left. congruence.
    + right; right; right. by apply cond_in_tag.
Qed.

End catalog.

(** C2, as stated, fails: the search text is handed to the store as a
    regular expression.  For [q = "."] the nurse is returned, although "."
    occurs in none of its names, nor in its field, nor among its tags. *)
Lemma list_careers_pattern_is_not_substring :
  ∃ card cards,
    list_careers (engine := small_engine) (Some seeded_store) (Some ".") None None
    = Return (card :: cards)
    ∧ career_card (Doc (Some (new_oid 0)) (Career.model_dump sample_nurse)) = Return card
    ∧ ci_substring "." (CareerCard.name_en card) = false
    ∧ ci_substring "." (CareerCard.name_te card) = false
    ∧ ci_substring "." (CareerCard.field card) = false
    ∧ bool_decide ("." ∈ Career.tags sample_nurse) = false.
Proof. eexists _, _. repeat split; vm_compute; reflexivity. Qed.

Lemma list_careers_sound_witness :
  ∃ cards,
    list_careers (engine := small_engine) (Some seeded_store)
      (Some "nur") (Some "Healthcare") (Some "nursing") = Return cards
    ∧ (length cards ≤ 60)%nat
    ∧ ∀ card, card ∈ cards → CareerCard.field card = "Healthcare".
Proof.
  eexists. split; [vm_compute; reflexivity |].
  destruct (list_careers_sound (engine := small_engine) seeded_store
              (Some "nur") (Some "Healthcare") (Some "nursing") _ eq_refl)
    as (Hlen & Hall & _).
  split; [exact Hlen |].
  intros card Hcard. destruct (Hall card Hcard) as (d & _ & _ & Hfield & _).
  by apply Hfield.
Defined.

(** On a search text without special characters the small engine is the
    case-insensitive substring test. *)
Lemma parse_pattern_literal (q : string) :
  forallb (λ c, negb (is_meta c)) (String.list_ascii_of_string q) = true →
  parse_pattern q = Some (Lit <$> String.list_ascii_of_string q).
Proof.
  induction q as [|c q IH]; [done |].
  cbn [String.list_ascii_of_string forallb]. intros [Hc Hq]%andb_true_iff.
  cbn [parse_pattern]. rewrite (IH Hq).
  apply negb_true_iff in Hc.
  destruct (Ascii.eqb_spec c ".") as [->|_]; [discriminate |].
  destruct (Ascii.eqb_spec c "\") as [->|_]; [discriminate |].
  by rewrite Hc.
Qed.

Lemma match_here_literal (q s : string) :
  match_here true (Lit <$> String.list_ascii_of_string q) s = ci_prefix q s.
Proof.
  revert s; induction q as [|c q IH]; intros s; [done |].
  destruct s as [|b s]; [done |].
  cbn [String.list_ascii_of_string fmap list_fmap match_here atom_matches ci_prefix].
  by rewrite IH.
Qed.

Lemma small_regex_literal (q : string) :
  forallb (λ c, negb (is_meta c)) (String.list_ascii_of_string q) = true →
  ∃ m, small_regex_compile q "i" = Some m ∧ ∀ s, m s = ci_substring q s.
Proof.
  intros Hq. unfold small_regex_compile. cbn [String.eqb Ascii.eqb Bool.eqb].
  rewrite (parse_pattern_literal q Hq). eexists. split; [reflexivity |].
  intros s. induction s as [|b s IH].
  - cbn [search ci_substring]. by rewrite match_here_literal.
  - cbn [search ci_substring]. by rewrite match_here_literal, IH.
Qed.

(** ** The handlers keep the store well formed *)

Lemma remove_first_subseteq (p : doc → bool) (ds : list doc) (d : doc) :
  d ∈ remove_first p ds → d ∈ ds.
Proof.
  induction ds as [|x ds IH]; [done |].
  cbn [remove_first]. destruct (p x).
  - intros Hd. by right.
  - intros [->|Hd]%elem_of_cons; [left | right; by apply IH].
Qed.

Lemma store_wf_set_coll (st : Store) (name : string) (ds : list doc) :
  store_wf st → (∀ d, d ∈ ds → d ∈ coll st name) → store_wf (set_coll st name ds).
Proof.
  intros Hwf Hsub name' d. destruct (decide (name = name')) as [<-|Hne].
  - rewrite coll_set_coll_eq. intros Hd. by apply (Hwf name), Hsub.
  - rewrite coll_set_coll_ne by done. apply Hwf.
Qed.

Create HintDb store_inv.

#[local] Hint Resolve store_wf_insert_one store_wf_insert_many : store_inv.

Section invariant.
Context {engine : Engine}.

Lemma store_wf_delete_one (st st' : Store) (name : string) (q : query) :
  store_wf st → delete_one st name q = Return st' → store_wf st'.
Proof.
  intros Hwf. unfold delete_one. destruct (query_valid q); [| discriminate].
  destruct (existsb _ _); intros [= <-]; [| done].
  apply store_wf_set_coll; [done |]. apply remove_first_subseteq.
Qed.

Ltac same_store :=
  let Heq := fresh "Heq" in
  cbn [snd]; intros Heq; apply (inj Some) in Heq; subst.

Lemma handlers_keep_store_wf (st : Store) :
  store_wf st →
  (∀ st', (seed_data (Some st)).2 = Some st' → store_wf st')
  ∧ (∀ item st', (save_career (Some st) item).2 = Some st' → store_wf st')
  ∧ (∀ user_id saved_id st',
       (delete_saved (Some st) user_id saved_id).2 = Some st' → store_wf st')
  ∧ (∀ payload st', (submit_test (Some st) payload).2 = Some st' → store_wf st')
  ∧ (∀ st', (get_questions (Some st)).2 = Some st' → store_wf st')
  ∧ (∀ st', (counselors (Some st)).2 = Some st' → store_wf st').
Proof.
  intros Hwf. repeat split.
  - intros st'. unfold seed_data.
    repeat case_match; same_store; auto with store_inv.
  - intros item st'. unfold save_career, create_document.
    destruct (find_one _ _ _) as [[d|]|e]; [destruct (from_option _ _ _) | |];
      cbn [from_option]; try (same_store; by auto with store_inv).
    all: destruct (insert_one _ _ _) as [o st1] eqn:Hins; same_store;
      change st' with (o, st').2; rewrite <- Hins; auto with store_inv.
  - intros user_id saved_id st'. unfold delete_saved.
    repeat case_match; same_store; auto.
    by eapply store_wf_delete_one.
  - intros payload st'. rewrite submit_test_present.
    destruct db_bool as [[|]|e]; same_store; [| done | done].
    apply store_wf_insert_one, Hwf.
  - intros st'. unfold get_questions.
    repeat case_match; same_store; auto with store_inv.
  - intros st'. unfold counselors.
    repeat case_match; same_store; auto with store_inv.
Qed.

End invariant.

(** * Further properties of the handlers *)

(** ** Identifiers: from string and back *)

Lemma fromhex_hex_byte (b : byte) (s : string) :
  fromhex (String (hex_digit (Byte.to_N b / 16))
             (String (hex_digit (Byte.to_N b mod 16)) s))
  = match fromhex s with
    | Some bs => Some (b :: bs)
    | None => None
    end.
Proof. destruct b; reflexivity. Qed.

Lemma fromhex_hexlify (bs : list byte) : fromhex (hexlify bs) = Some bs.
Proof.
  induction bs as [|b bs IH]; [done |].
  cbn [hexlify]. by rewrite fromhex_hex_byte, IH.
Qed.

Lemma ObjectId_of_str_str (o : ObjectId) :
  length o = 12%nat → ObjectId_of_str (ObjectId_str o) = Some o.
Proof.
  intros Hlen. unfold ObjectId_of_str, ObjectId_str.
  rewrite hexlify_length, Hlen. cbn [Nat.mul Nat.add Nat.eqb].
  apply fromhex_hexlify.
Qed.

Section detail.
Context {engine : Engine}.

Lemma id_query_matches (o : ObjectId) (d : doc) :
  matches [Field "_id" (CEq (SOid o))] d = true ↔ doc_id d = Some o.
Proof.
  unfold matches. cbn [forallb entry_matches].
  change (doc_get "_id" d) with (VOid <$> doc_id d). rewrite andb_true_r.
  destruct (doc_id d) as [o'|]; cbn [fmap option_fmap option_map cond_matches].
  - unfold field_any. cbn [value_is]. rewrite orb_false_r, bool_decide_eq_true.
    split; congruence.
  - split; discriminate.
Qed.

(** The lookup of [career_detail], for an identifier that parses. *)
Lemma career_detail_parsed (st : Store) (s : string) (o : ObjectId) :
  ObjectId_of_str s = Some o →
  career_detail (Some st) s
  = match head (filter (λ d, matches [Field "_id" (CEq (SOid o))] d = true)
                  (coll st "career")) with
    | Some d => to_str_id d
    | None => Raise (HTTPException 404 "Not found")
    end.
Proof.
  intros Hparse. unfold career_detail, find_one, find. rewrite Hparse.
  cbn [query_valid forallb entry_valid andb].
  cbn [mbind outcome_bind mret outcome_ret].
  destruct (head _) as [d|] eqn:Hhead; [| done].
  apply head_Some_elem_of, list_elem_of_filter in Hhead as [Hm _].
  apply id_query_matches in Hm. unfold doc_truthy. by rewrite Hm.
Qed.

(** X2: for an identifier that parses, [career_detail] answers 404, a client
    error, when no career carries it, and otherwise returns a career that
    carries it, with the identifier's canonical string under ["id"] and no
    internal identifier. *)
Theorem career_detail_outcomes (st : Store) (s : string) (o : ObjectId) :
  ObjectId_of_str s = Some o →
  (Forall (λ d, doc_id d ≠ Some o) (coll st "career") →
   career_detail (Some st) s = Raise (HTTPException 404 "Not found")
   ∧ client_error (HTTPException 404 "Not found") = true)
  ∧ (Exists (λ d, doc_id d = Some o) (coll st "career") →
     ∃ d, d ∈ coll st "career" ∧ doc_id d = Some o
          ∧ career_detail (Some st) s = Return (with_str_id o d))
  ∧ (∀ r, career_detail (Some st) s = Return r →
          ∃ d, d ∈ coll st "career" ∧ doc_id d = Some o ∧ r = with_str_id o d).
Proof.
  intros Hparse. rewrite (career_detail_parsed st s o Hparse).
  destruct (head _) as [d0|] eqn:Hhead.
  - pose proof Hhead as Hin.
    apply head_Some_elem_of, list_elem_of_filter in Hin as [Hm Hin].
    apply id_query_matches in Hm.
    assert (to_str_id d0 = Return (with_str_id o d0)) as Hto
      by (unfold to_str_id; by rewrite Hm).
    split; [| split].
    + intros Hnone. rewrite Forall_forall in Hnone. by destruct (Hnone d0 Hin).
    + intros _. by exists d0.
    + intros r Hr. exists d0. rewrite Hto in Hr. by injection Hr as <-.
  - split; [done | split; [| discriminate]].
    intros (d & Hin & Hd)%Exists_exists. exfalso.
    apply head_None in Hhead.
    assert (d ∈ filter (λ d, matches [Field "_id" (CEq (SOid o))] d = true)
                  (coll st "career")) as Hd'
      by (apply list_elem_of_filter; split; [by apply id_query_matches | done]).
    rewrite Hhead in Hd'. by apply elem_of_nil in Hd'.
Qed.

(** The string of a stored career's identifier resolves in [career_detail]. *)
Lemma career_detail_found (st : Store) (d : doc) (o : ObjectId) :
  d ∈ coll st "career" → doc_id d = Some o → length o = 12%nat →
  ∃ d0, d0 ∈ coll st "career" ∧ doc_id d0 = Some o
        ∧ career_detail (Some st) (ObjectId_str o) = Return (with_str_id o d0).
Proof.
  intros Hin Hid Hlen.
  rewrite (career_detail_parsed st _ o (ObjectId_of_str_str o Hlen)).
  destruct (head _) as [d0|] eqn:Hhead.
  - apply head_Some_elem_of, list_elem_of_filter in Hhead as [Hm Hin0].
    apply id_query_matches in Hm. exists d0. split; [done | split; [done |]].
    unfold to_str_id. by rewrite Hm.
  - exfalso. apply head_None in Hhead.
    assert (d ∈ filter (λ d, matches [Field "_id" (CEq (SOid o))] d = true)
                  (coll st "career")) as Hd'
      by (apply list_elem_of_filter; split; [by apply id_query_matches | done]).
    rewrite Hhead in Hd'. by apply elem_of_nil in Hd'.
Qed.

(** X1: every identifier the catalog search shows resolves in the career
    detail: the detail lookup of a returned card's [id] returns a record
    that carries this [id]. *)
Theorem catalog_ids_resolve (st : Store) (q field edu : option string)
    (cards : list CareerCard.t) :
  store_wf st →
  list_careers (Some st) q field edu = Return cards →
  ∀ card, card ∈ cards →
    ∃ r, career_detail (Some st) (CareerCard.id card) = Return r
         ∧ doc_id r = None
         ∧ doc_fields r !! "id" = Some (VStr (CareerCard.id card)).
Proof.
  intros Hwf Hret card Hcard. unfold list_careers in Hret.
  destruct (find st "career" _) as [docs|e] eqn:Hfind; [| discriminate].
  cbn [mbind outcome_bind] in Hret.
  apply find_Return in Hfind as [_ ->].
  apply mapM_Return_inv in Hret as [_ Hall].
  destruct (Hall card Hcard) as (d & Hd & Hcardd).
  apply elem_of_limit, list_elem_of_filter in Hd as [_ Hd].
  apply career_card_inv in Hcardd as [(o & Hid & ->) _].
  destruct (Hwf _ _ Hd) as (o' & Hid' & Hlen).
  assert (o' = o) as -> by congruence.
  destruct (career_detail_found st d o Hd Hid Hlen) as (d0 & _ & _ & Hdetail).
  eexists. split; [exact Hdetail |]. split; [done |]. apply lookup_insert_eq.
Qed.

(** X3: a quiz submission on a present store leaves the careers as they
    are, and raises only when the truth test of the handle does.  When it
    returns, every recommended identifier is the identifier of a stored
    career that satisfies the filter, and it resolves in the career detail
    on the store the submission leaves behind. *)
Theorem recommended_ids_resolve (st : Store) (payload : TestSubmission.t) :
  store_wf st →
  ∃ st',
    (submit_test (Some st) payload).2 = Some st'
    ∧ coll st' "career" = coll st "career"
    ∧ match db_bool with
      | Return _ => ∃ r, (submit_test (Some st) payload).1 = Return r
      | Raise e => (submit_test (Some st) payload).1 = Raise e
      end
    ∧ ∀ r i, (submit_test (Some st) payload).1 = Return r →
        i ∈ TestResult.recommended_ids r →
        ∃ d o, d ∈ coll st "career" ∧ doc_id d = Some o ∧ i = ObjectId_str o
               ∧ matches (submit_query (pred_filter <$>
                            omap quiz_table (TestSubmission.answers payload))) d = true
               ∧ ∃ rec, career_detail (Some st') i = Return rec
                        ∧ doc_fields rec !! "id" = Some (VStr i).
Proof.
  intros Hwf. rewrite submit_test_present.
  destruct db_bool as [[|]|e]; cbn [fst snd].
  - eexists. split; [reflexivity |].
    assert (coll (create_document st "testresult"
                    (submit_record payload
                       (str_get_id <$> take 6
                          (filter (λ d, matches (submit_query (pred_filter <$>
                             omap quiz_table (TestSubmission.answers payload))) d = true)
                             (coll st "career"))))).2 "career"
            = coll st "career") as Hsame by (by apply coll_insert_one_ne).
    split; [exact Hsame |]. split; [by eexists |].
    intros r i [= <-]. cbn [TestResult.recommended_ids].
    intros (d & -> & Hd)%list_elem_of_fmap.
    apply subseteq_take, list_elem_of_filter in Hd as [Hm Hd].
    destruct (Hwf _ _ Hd) as (o & Hid & Hlen).
    exists d, o. split; [done |]. split; [done |].
    unfold str_get_id. rewrite Hid. split; [done |]. split; [done |].
    destruct (career_detail_found _ d o ltac:(rewrite Hsame; exact Hd) Hid Hlen)
      as (d0 & _ & _ & Hdetail).
    eexists. split; [exact Hdetail |]. apply lookup_insert_eq.
  - exists st. split; [done |]. split; [done |]. split; [by eexists |].
    intros r i [= <-]. cbn [TestResult.recommended_ids].
    intros Hi. by apply elem_of_nil in Hi.
  - exists st. split; [done |]. split; [done |]. split; [done |].
    intros r i [=].
Qed.

End detail.

Lemma catalog_ids_resolve_witness :
  store_wf seeded_store
  ∧ list_careers (engine := small_engine) (Some seeded_store) (Some "teach") None None
    = Return [card_of (new_oid 2, sample_teacher)]
  ∧ ∃ r, career_detail (engine := small_engine) (Some seeded_store)
           "000000000000000000000002" = Return r
         ∧ doc_id r = None
         ∧ doc_fields r !! "id" = Some (VStr "000000000000000000000002").
Proof.
  split; [exact store_wf_seeded |]. split; [vm_compute; reflexivity |].
  apply (catalog_ids_resolve (engine := small_engine) seeded_store
           (Some "teach") None None [card_of (new_oid 2, sample_teacher)]
           store_wf_seeded eq_refl (card_of (new_oid 2, sample_teacher))).
  apply list_elem_of_here.
Defined.

Lemma career_detail_outcomes_witness :
  ObjectId_of_str "00000000000000000000000A" = Some (new_oid 10)
  ∧ career_detail (engine := small_engine) (Some seeded_store)
      "00000000000000000000000A" = Raise (HTTPException 404 "Not found").
Proof.
  split; [reflexivity |].
  destruct (career_detail_outcomes (engine := small_engine) seeded_store
              "00000000000000000000000A" (new_oid 10) eq_refl) as (Hnone & _).
  apply Hnone. repeat constructor; discriminate.
Defined.

Lemma recommended_ids_resolve_witness :
  store_wf seeded_store
  ∧ ∃ st',
      (submit_test (engine := small_engine) (Some seeded_store)
         (TestSubmission.mk None ["teach"])).2 = Some st'
      ∧ coll st' "career" = coll seeded_store "career"
      ∧ ∃ rec, career_detail (engine := small_engine) (Some st')
                 "000000000000000000000002" = Return rec
               ∧ doc_fields rec !! "id" = Some (VStr "000000000000000000000002").
Proof.
  split; [exact store_wf_seeded |].
  destruct (recommended_ids_resolve (engine := small_engine) seeded_store
              (TestSubmission.mk None ["teach"]) store_wf_seeded)
    as (st' & Hleft & Hsame & _ & Hids).
  exists st'. split; [exact Hleft |]. split; [exact Hsame |].
  destruct (Hids (TestResult.mk None ["000000000000000000000002"])
              "000000000000000000000002" eq_refl (list_elem_of_here _ _))
    as (d & o & _ & _ & _ & _ & Hrec).
  exact Hrec.
Defined.

(** ** The saved list *)

Lemma mapM_app_Return {A B} (f : A → outcome B) (l1 l2 : list A) (r1 r2 : list B) :
  mapM f l1 = Return r1 → mapM f l2 = Return r2 →
  mapM f (l1 ++ l2)%list = Return (r1 ++ r2)%list.
Proof.
  revert r1; induction l1 as [|a l1 IH]; intros r1.
  - by intros [= <-].
  - cbn [mapM app]. destruct (f a) as [b|e]; [| discriminate].
    destruct (mapM f l1) as [r|e]; [| discriminate].
    intros [= <-] H2. cbn [mbind outcome_bind]. by rewrite (IH r eq_refl H2).
Qed.

Lemma mapM_to_str_id (ds : list doc) :
  Forall (λ d, is_Some (doc_id d)) ds → mapM to_str_id ds = Return (public_view <$> ds).
Proof.
  induction 1 as [|d ds [o Hd] _ IH]; [done |].
  assert (to_str_id d = Return (public_view d)) as Hto
    by (unfold to_str_id, public_view, str_get_id; by rewrite Hd).
  cbn [mapM fmap list_fmap]. by rewrite IH, Hto.
Qed.

Lemma remove_first_app_last (p : doc → bool) (l : list doc) (d : doc) :
  Forall (λ x, p x = false) l → p d = true → remove_first p (l ++ [d])%list = l.
Proof.
  induction 1 as [|x l Hx _ IH]; intros Hd; cbn [app remove_first].
  - by rewrite Hd.
  - by rewrite Hx, IH.
Qed.

Section saved_flow.
Context {engine : Engine}.

Lemma user_query_spec (u : string) (d : doc) :
  matches [Field "user_id" (CEq (SStr u))] d = true
  ↔ ∃ v, doc_fields d !! "user_id" = Some v
         ∧ field_any (value_is (SStr u)) v = true.
Proof.
  unfold matches. cbn [forallb entry_matches].
  change (doc_get "user_id" d) with (doc_fields d !! "user_id"). rewrite andb_true_r.
  destruct (doc_fields d !! "user_id") as [v|]; cbn [cond_matches].
  - split; [intros Hv; by exists v | intros (v' & [= <-] & Hv); done].
  - split; [discriminate | intros (v' & [=] & _)].
Qed.

Lemma user_query_saved (u : string) (o : option ObjectId) (s : SavedCareer.t) :
  matches [Field "user_id" (CEq (SStr u))] (Doc o (SavedCareer.model_dump s))
  = String.eqb u (SavedCareer.user_id s).
Proof.
  unfold matches. cbn [forallb entry_matches].
  change (doc_get "user_id" (Doc o (SavedCareer.model_dump s)))
    with (Some (VStr (SavedCareer.user_id s))).
  by rewrite cond_eq_str, andb_true_r.
Qed.

Lemma list_saved_eq (st : Store) (u : string) :
  store_wf st →
  list_saved (Some st) u
  = Return (public_view <$> filter (λ d, matches [Field "user_id" (CEq (SStr u))] d = true)
                              (coll st "savedcareer")).
Proof.
  intros Hwf. unfold list_saved, find. cbn [query_valid forallb entry_valid andb].
  cbn [mbind outcome_bind]. apply mapM_to_str_id.
  apply Forall_forall. intros d [_ Hd]%list_elem_of_filter.
  destruct (Hwf _ _ Hd) as (o & -> & _). by eexists.
Qed.

(** X4: the saved list of a user holds exactly the user's records, in the
    order they were saved: every returned record has the user under
    ["user_id"], and every stored record of the user is returned, with its
    identifier as a string under ["id"]. *)
Theorem list_saved_own_records (st : Store) (u : string) :
  store_wf st →
  ∃ rs, list_saved (Some st) u = Return rs
        ∧ (∀ r, r ∈ rs →
             doc_id r = None
             ∧ ∃ v, doc_fields r !! "user_id" = Some v
                    ∧ field_any (value_is (SStr u)) v = true)
        ∧ (∀ o s, Doc (Some o) (SavedCareer.model_dump s) ∈ coll st "savedcareer" →
             (with_str_id o (Doc (Some o) (SavedCareer.model_dump s)) ∈ rs
              ↔ SavedCareer.user_id s = u)).
Proof.
  intros Hwf. eexists. split; [by apply list_saved_eq |]. split.
  - intros r (d & -> & Hd)%list_elem_of_fmap. split; [done |].
    apply list_elem_of_filter in Hd as [Hm _].
    apply user_query_spec in Hm as (v & Hv & Hu). exists v. split; [| done].
    unfold public_view. cbn [doc_fields]. by rewrite lookup_insert_ne.
  - intros o s Hin. split.
    + intros (d & Heq & Hd)%list_elem_of_fmap.
      apply list_elem_of_filter in Hd as [Hm _].
      apply user_query_spec in Hm as (v & Hv & Hu).
      assert (doc_fields d !! "user_id" = Some (VStr (SavedCareer.user_id s))) as Hs.
      { apply (f_equal (λ x, doc_fields x !! "user_id")) in Heq.
        unfold with_str_id, public_view in Heq. cbn [doc_fields] in Heq.
        rewrite !lookup_insert_ne in Heq by done. by rewrite <- Heq. }
      rewrite Hs in Hv. injection Hv as <-.
      unfold field_any in Hu. cbn [value_is] in Hu. rewrite orb_false_r in Hu.
      symmetry. by apply String.eqb_eq.
    + intros <-. apply list_elem_of_fmap.
      exists (Doc (Some o) (SavedCareer.model_dump s)). split; [done |].
      apply list_elem_of_filter. split; [| done].
      rewrite user_query_saved. apply String.eqb_refl.
Qed.

Lemma save_career_new (st : Store) (item : SavedCareer.t) :
  filter (λ d, matches (saved_pair_query item) d = true) (coll st "savedcareer") = [] →
  save_career (Some st) item
  = (Return (<["id" := VStr (ObjectId_str (new_oid (next_id st)))]>
               {["status" := VStr "ok"]}),
     Some (create_document st "savedcareer" (SavedCareer.model_dump item)).2).
Proof.
  intros Hnone. unfold save_career, find_one, find.
  rewrite saved_pair_query_valid, Hnone. done.
Qed.

(** X5: a newly saved career shows up at the end of the user's saved list,
    under the identifier the save returned. *)
Theorem save_then_list_saved (st : Store) (item : SavedCareer.t) :
  store_wf st →
  filter (λ d, matches (saved_pair_query item) d = true) (coll st "savedcareer") = [] →
  ∃ i st1 before,
    save_career (Some st) item
    = (Return (<["id" := VStr i]> {["status" := VStr "ok"]}), Some st1)
    ∧ list_saved (Some st) (SavedCareer.user_id item) = Return before
    ∧ list_saved (Some st1) (SavedCareer.user_id item)
      = Return (before ++ [Doc None (<["id" := VStr i]> (SavedCareer.model_dump item))])%list.
Proof.
  intros Hwf Hnone. eexists _, _, _.
  split; [by apply save_career_new |].
  split; [by apply list_saved_eq |].
  rewrite list_saved_eq by (by apply store_wf_insert_one).
  rewrite coll_create_document_eq, filter_app.
  rewrite (filter_cons_True _ (Doc _ _))
    by (rewrite user_query_saved; apply String.eqb_refl).
  by rewrite fmap_app.
Qed.

(** X6: deleting a newly saved career under the identifier the save
    returned, as the same user, brings the saved collection back to what it
    was; as another user it changes nothing. *)
Theorem save_then_delete (st : Store) (item : SavedCareer.t) :
  next_id_unused st "savedcareer" →
  filter (λ d, matches (saved_pair_query item) d = true) (coll st "savedcareer") = [] →
  ∃ i st1 st2,
    save_career (Some st) item
    = (Return (<["id" := VStr i]> {["status" := VStr "ok"]}), Some st1)
    ∧ delete_saved (Some st1) (SavedCareer.user_id item) i
      = (Return {["status" := VStr "deleted"]}, Some st2)
    ∧ coll st2 "savedcareer" = coll st "savedcareer"
    ∧ (∀ u, u ≠ SavedCareer.user_id item →
            delete_saved (Some st1) u i
            = (Return {["status" := VStr "deleted"]}, Some st1)).
Proof.
  intros Hunused Hnone.
  set (o := new_oid (next_id st)).
  set (d := Doc (Some o) (SavedCareer.model_dump item)).
  assert (∀ u, Forall (λ x, matches (saved_delete_query o u) x = false)
                 (coll st "savedcareer")) as Hold.
  { intros u. eapply Forall_impl; [exact Hunused |]. intros x Hx.
    destruct (matches _ x) eqn:Hm; [| done].
    apply saved_delete_query_spec in Hm as [Hm _]. done. }
  eexists _, _, _. split; [by apply save_career_new |].
  unfold delete_saved, delete_one. fold o.
  rewrite (ObjectId_of_str_str o (new_oid_length _)), !saved_delete_query_valid.
  rewrite coll_create_document_eq. fold o d.
  assert (matches (saved_delete_query o (SavedCareer.user_id item)) d = true) as Hd.
  { unfold d. rewrite saved_delete_query_matches, String.eqb_refl.
    by rewrite bool_decide_eq_true_2. }
  split; [| split].
  - rewrite existsb_app. cbn [existsb]. rewrite Hd, orb_true_r. reflexivity.
  - rewrite coll_set_coll_eq. by apply remove_first_app_last.
  - intros u Hu. rewrite existsb_app. cbn [existsb].
    rewrite (proj2 (existsb_false_Forall _ _) (Hold u)).
    unfold d. rewrite saved_delete_query_matches.
    destruct (String.eqb_spec u (SavedCareer.user_id item)) as [->|_]; [done |].
    by rewrite andb_false_r.
Qed.

(** X7: deletion is idempotent when identifiers are unique in the saved
    collection: a second deletion with the same arguments changes nothing,
    and after the first no record matches the identifier and the user. *)
Theorem delete_saved_twice (st : Store) (u s : string) (o : ObjectId) :
  ObjectId_of_str s = Some o →
  NoDup (doc_id <$> coll st "savedcareer") →
  ∃ st1,
    delete_saved (Some st) u s = (Return {["status" := VStr "deleted"]}, Some st1)
    ∧ delete_saved (Some st1) u s = (Return {["status" := VStr "deleted"]}, Some st1)
    ∧ Forall (λ d, matches (saved_delete_query o u) d = false) (coll st1 "savedcareer").
Proof.
  intros Hparse Hnodup. unfold delete_saved, delete_one.
  rewrite Hparse, saved_delete_query_valid.
  set (p := matches (saved_delete_query o u)).
  destruct (existsb p (coll st "savedcareer")) eqn:Hex.
  - destruct (remove_first_split _ _ Hex) as (l1 & d & l2 & Hds & Hd & Hl1 & Hrm).
    assert (Forall (λ x, p x = false) (l1 ++ l2)%list) as Hrest.
    { apply Forall_app. split; [done |]. apply Forall_forall. intros x Hx.
      destruct (p x) eqn:Hpx; [| done]. exfalso.
      apply saved_delete_query_spec in Hd as [Hd _].
      apply saved_delete_query_spec in Hpx as [Hpx _].
      rewrite Hds, fmap_app, fmap_cons in Hnodup.
      apply NoDup_app in Hnodup as (_ & _ & Hnodup).
      apply NoDup_cons in Hnodup as [Hnotin _]. apply Hnotin.
      rewrite Hd, <- Hpx. by apply list_elem_of_fmap_2. }
    eexists. split; [reflexivity |].
    rewrite coll_set_coll_eq, Hrm.
    rewrite (proj2 (existsb_false_Forall _ _) Hrest). done.
  - exists st. rewrite Hex. split; [done | split; [done |]].
    by apply existsb_false_Forall.
Qed.

End saved_flow.

Lemma list_saved_own_records_witness :
  store_wf saved_store
  ∧ ∃ rs, list_saved (engine := small_engine) (Some saved_store) "u1" = Return rs
          ∧ length rs = 1%nat.
Proof.
  assert (store_wf saved_store) as Hwf
    by apply store_wf_insert_one, store_wf_seeded.
  split; [exact Hwf |].
  destruct (list_saved_own_records (engine := small_engine) saved_store "u1" Hwf)
    as (rs & Hrs & _).
  exists rs. split; [exact Hrs |].
  assert (Return rs = Return (public_view <$> coll saved_store "savedcareer")) as Heq
    by (rewrite <- Hrs; reflexivity).
  injection Heq as ->. reflexivity.
Defined.

Lemma save_then_list_saved_witness :
  store_wf seeded_store
  ∧ filter (λ d, matches (engine := small_engine)
                   (saved_pair_query (SavedCareer.mk "u1" "000000000000000000000001")) d
                 = true)
      (coll seeded_store "savedcareer") = []
  ∧ ∃ i st1,
      save_career (engine := small_engine) (Some seeded_store)
        (SavedCareer.mk "u1" "000000000000000000000001")
      = (Return (<["id" := VStr i]> {["status" := VStr "ok"]}), Some st1)
      ∧ list_saved (engine := small_engine) (Some st1) "u1"
        = Return [Doc None (<["id" := VStr i]>
                    (SavedCareer.model_dump
                       (SavedCareer.mk "u1" "000000000000000000000001")))].
Proof.
  split; [exact store_wf_seeded |]. split; [reflexivity |].
  destruct (save_then_list_saved (engine := small_engine) seeded_store
              (SavedCareer.mk "u1" "000000000000000000000001")
              store_wf_seeded eq_refl)
    as (i & st1 & before & Hsave & Hbefore & Hafter).
  exists i, st1. split; [exact Hsave |].
  assert (Return before = Return []) as Heq by (rewrite <- Hbefore; reflexivity).
  injection Heq as ->. exact Hafter.
Defined.

Lemma save_then_delete_witness :
  next_id_unused seeded_store "savedcareer"
  ∧ ∃ i st1 st2,
      save_career (engine := small_engine) (Some seeded_store)
        (SavedCareer.mk "u1" "000000000000000000000001")
      = (Return (<["id" := VStr i]> {["status" := VStr "ok"]}), Some st1)
      ∧ delete_saved (engine := small_engine) (Some st1) "u1" i
        = (Return {["status" := VStr "deleted"]}, Some st2)
      ∧ coll st2 "savedcareer" = [].
Proof.
  assert (next_id_unused seeded_store "savedcareer") as Hunused by constructor.
  split; [exact Hunused |].
  destruct (save_then_delete (engine := small_engine) seeded_store
              (SavedCareer.mk "u1" "000000000000000000000001") Hunused eq_refl)
    as (i & st1 & st2 & Hsave & Hdelete & Hcoll & _).
  by exists i, st1, st2.
Defined.

Lemma delete_saved_twice_witness :
  ObjectId_of_str "000000000000000000000003" = Some (new_oid 3)
  ∧ NoDup (doc_id <$> coll saved_store "savedcareer")
  ∧ ∃ st1,
      delete_saved (engine := small_engine) (Some saved_store) "u1"
        "000000000000000000000003"
      = (Return {["status" := VStr "deleted"]}, Some st1)
      ∧ delete_saved (engine := small_engine) (Some st1) "u1"
          "000000000000000000000003"
        = (Return {["status" := VStr "deleted"]}, Some st1).
Proof.
  assert (NoDup (doc_id <$> coll saved_store "savedcareer")) as Hnodup
    by apply NoDup_singleton.
  split; [reflexivity |]. split; [exact Hnodup |].
  destruct (delete_saved_twice (engine := small_engine) saved_store "u1"
              "000000000000000000000003" (new_oid 3) eq_refl Hnodup)
    as (st1 & Hfirst & Hsecond & _).
  by exists st1.
Defined.

(** ** Bootstrap on first read *)

Lemma insert_sorted_Permutation (k : string) (d : doc) (ds : list doc) :
  insert_sorted k d ds ≡ₚ d :: ds.
Proof.
  induction ds as [|x ds IH]; [done |].
  cbn [insert_sorted]. destruct (_ <? _)%Z; [done |].
  rewrite IH. apply perm_swap.
Qed.

Lemma small_sort_by_Permutation (k : string) (ds : list doc) :
  small_sort_by k ds ≡ₚ ds.
Proof.
  unfold small_sort_by. induction ds as [|d ds IH]; [done |].
  cbn [foldr]. by rewrite insert_sorted_Permutation, IH.
Qed.

Section first_read.
Context {engine : Engine}.

Lemma find_all (st : Store) (name : string) :
  find st name [] = Return (coll st name).
Proof. unfold find. cbn [query_valid forallb]. by rewrite filter_matches_nil. Qed.

(** X8: the counselor list.  On an empty collection the two seed records
    are inserted and returned; otherwise nothing is written and the first
    100 stored records are returned.  Returned records carry no internal
    identifier, and a second call never writes. *)
Theorem counselors_bootstrap (st : Store) :
  ∃ rs st1,
    counselors (Some st) = (Return rs, Some st1)
    ∧ (length rs ≤ 100)%nat
    ∧ Forall (λ r, doc_id r = None) rs
    ∧ (counselors (Some st1)).2 = Some st1
    ∧ match coll st "counselor" with
      | [] => doc_fields <$> rs = Counselor.model_dump <$> counselor_seeds
              ∧ doc_fields <$> coll st1 "counselor"
                = Counselor.model_dump <$> counselor_seeds
      | _ :: _ => st1 = st ∧ rs = pop_id <$> take 100 (coll st "counselor")
      end.
Proof.
  unfold counselors. rewrite find_all.
  destruct (coll st "counselor") as [|d ds] eqn:Hc.
  - cbn [limit take]. rewrite find_all, coll_insert_many_eq, Hc.
    eexists _, _. split; [reflexivity |].
    split; [cbn; lia |]. split; [by repeat constructor |].
    split; [| split; [reflexivity |
                      rewrite coll_insert_many_eq, Hc; apply fresh_docs_fields]].
    rewrite find_all, coll_insert_many_eq, Hc. reflexivity.
  - cbn [limit take]. eexists _, _. split; [reflexivity |].
    split; [rewrite length_fmap; cbn [length]; rewrite length_take; lia |].
    split; [apply Forall_fmap, Forall_forall; done |].
    split; [| done].
    rewrite find_all, Hc. reflexivity.
Qed.

(** X9: the question list, for a store whose sort returns a permutation of
    its input.  On an empty collection the five seed questions are inserted;
    otherwise nothing is written.  The records returned are those of the
    collection afterwards, without internal identifiers, and a second call
    never writes. *)
Theorem get_questions_bootstrap (st : Store) :
  (∀ k ds, sort_by k ds ≡ₚ ds) →
  ∃ docs st1,
    get_questions (Some st) = (Return (Docs docs), Some st1)
    ∧ Forall (λ r, doc_id r = None) docs
    ∧ docs ≡ₚ pop_id <$> coll st1 "testquestion"
    ∧ (get_questions (Some st1)).2 = Some st1
    ∧ match coll st "testquestion" with
      | [] => doc_fields <$> coll st1 "testquestion"
              = TestQuestion.model_dump <$> question_seeds
      | _ :: _ => st1 = st
      end.
Proof.
  intros Hperm.
  assert (∀ st0 d ds, coll st0 "testquestion" = d :: ds →
            get_questions (Some st0)
            = (Return (Docs (pop_id <$> sort_by "step" (d :: ds))), Some st0)) as Hfull.
  { intros st0 d ds Hc. unfold get_questions. rewrite find_all, Hc.
    destruct (sort_by "step" (d :: ds)) as [|x xs] eqn:Hs; [| done].
    pose proof (Hperm "step" (d :: ds)) as Hp. rewrite Hs in Hp.
    by apply Permutation_nil_cons in Hp. }
  destruct (coll st "testquestion") as [|d ds] eqn:Hc.
  - unfold get_questions at 1. rewrite find_all, Hc.
    rewrite (Permutation_nil (symmetry (Hperm "step" []))).
    rewrite find_all, coll_insert_many_eq, Hc.
    eexists _, _. split; [reflexivity |].
    split; [apply Forall_fmap, Forall_forall; done |].
    split; [by rewrite coll_insert_many_eq, Hc, Hperm |].
    split; [| rewrite coll_insert_many_eq, Hc; apply fresh_docs_fields].
    erewrite Hfull; [reflexivity |].
    rewrite coll_insert_many_eq, Hc. reflexivity.
  - rewrite (Hfull st d ds Hc). eexists _, _. split; [reflexivity |].
    split; [apply Forall_fmap, Forall_forall; done |].
    split; [by rewrite Hc, Hperm |]. split; [| done].
    by rewrite (Hfull st d ds Hc).
Qed.

End first_read.

Lemma get_questions_bootstrap_witness :
  (∀ k ds, sort_by (Engine := small_engine) k ds ≡ₚ ds)
  ∧ ∃ docs st1,
      get_questions (engine := small_engine) (Some seeded_store)
      = (Return (Docs docs), Some st1)
      ∧ Forall (λ r, doc_id r = None) docs
      ∧ doc_fields <$> coll st1 "testquestion"
        = TestQuestion.model_dump <$> question_seeds.
Proof.
  split; [exact small_sort_by_Permutation |].
  destruct (get_questions_bootstrap (engine := small_engine) seeded_store
              small_sort_by_Permutation)
    as (docs & st1 & Hret & Hnoid & _ & _ & Hseeds).
  by exists docs, st1.
Defined.

(** ** Each handler writes to its own collection only *)

Ltac store_left :=
  let Heq := fresh "Heq" in
  cbn [snd]; intros Heq; apply (inj Some) in Heq; subst.

Lemma coll_create_document_ne (st : Store) (name name' : string) (data : dict) :
  name ≠ name' → coll (create_document st name data).2 name' = coll st name'.
Proof. apply coll_insert_one_ne. Qed.

Ltac other_collection :=
  rewrite ?coll_create_document_ne, ?coll_insert_one_ne, ?coll_insert_many_ne,
    ?coll_set_coll_ne by done;
  try done.

Section isolation.
Context {engine : Engine}.

Lemma coll_delete_one_ne (st st' : Store) (name name' : string) (q : query) :
  delete_one st name q = Return st' → name ≠ name' → coll st' name' = coll st name'.
Proof.
  unfold delete_one. destruct (query_valid q); [| discriminate].
  destruct (existsb _ _); intros [= <-] Hne; [| done].
  by apply coll_set_coll_ne.
Qed.

(** X10: whatever a handler returns or raises, the store handle it leaves
    differs from the one it got in one collection at most: careers for the
    startup seeding, saved careers for save and delete, the submission
    history for the quiz, questions, counselors and contact messages for
    their handlers.  In particular no request handler writes to the
    careers. *)
Theorem handlers_write_own_collection (st st' : Store) (name : string) :
  ((seed_data (Some st)).2 = Some st' → name ≠ "career" →
   coll st' name = coll st name)
  ∧ (∀ item, (save_career (Some st) item).2 = Some st' → name ≠ "savedcareer" →
             coll st' name = coll st name)
  ∧ (∀ user_id saved_id,
       (delete_saved (Some st) user_id saved_id).2 = Some st' →
       name ≠ "savedcareer" → coll st' name = coll st name)
  ∧ (∀ payload, (submit_test (Some st) payload).2 = Some st' → name ≠ "testresult" →
                coll st' name = coll st name)
  ∧ ((get_questions (Some st)).2 = Some st' → name ≠ "testquestion" →
     coll st' name = coll st name)
  ∧ ((counselors (Some st)).2 = Some st' → name ≠ "counselor" →
     coll st' name = coll st name)
  ∧ (∀ msg, (contact (Some st) msg).2 = Some st' → name ≠ "contactmessage" →
            coll st' name = coll st name).
Proof.
  repeat split.
  - unfold seed_data. repeat case_match; store_left; intros Hne; other_collection.
  - intros item. unfold save_career, create_document.
    destruct (find_one _ _ _) as [[d|]|e]; [destruct (from_option _ _ _) | |];
      cbn [from_option]; try (store_left; done).
    all: destruct (insert_one _ _ _) as [o st1] eqn:Hins; store_left; intros Hne;
      change st' with (o, st').2; rewrite <- Hins; other_collection.
  - intros user_id saved_id. unfold delete_saved.
    repeat case_match; store_left; intros Hne; try done.
    by eapply coll_delete_one_ne.
  - intros payload. rewrite submit_test_present.
    destruct db_bool as [[|]|e]; store_left; intros Hne; other_collection.
  - unfold get_questions. repeat case_match; store_left; intros Hne; other_collection.
  - unfold counselors. repeat case_match; store_left; intros Hne; other_collection.
  - intros msg. unfold contact.
    destruct db_bool as [[|]|e]; [| by store_left | by store_left].
    destruct (create_document _ _ _) as [i st1] eqn:Hins. store_left. intros Hne.
    change st' with (i, st').2. rewrite <- Hins. other_collection.
Qed.

(** X11: without a store.  Saving and deleting fail with the 500 error
    before the identifier is looked at, so also for one that does not
    parse; the saved list and the counselor list are empty; a quiz
    submission returns no recommendation, whatever the answers; a contact
    message is acknowledged; seeding does nothing.  No handler brings a
    store into being. *)
Theorem degraded_mode_writes :
  (∀ item, ∃ e, save_career None item = (Raise e, None)
                ∧ e = HTTPException 500 "Database not available")
  ∧ (∀ user_id saved_id, ∃ e, delete_saved None user_id saved_id = (Raise e, None)
                              ∧ e = HTTPException 500 "Database not available")
  ∧ (∀ user_id, list_saved None user_id = Return [])
  ∧ counselors None = (Return [], None)
  ∧ (∀ payload, submit_test None payload
                = (Return (TestResult.mk (TestSubmission.user_id payload) []), None))
  ∧ (∀ msg, contact None msg = (Return {["status" := VStr "received"]}, None))
  ∧ seed_data None = (Return (), None).
Proof.
  repeat split; try (intros; by eexists).
  intros payload. unfold submit_test. by rewrite submit_filters_table.
Qed.

(** X12: the history of quiz submissions on a present store, by the truth
    value of the handle.  When it is true, one record is appended, which
    holds the answers as they were sent, unknown keys included, the
    identifiers that were returned, and the user: the sent user_id when it
    is a non-empty string, "guest" otherwise; the result carries the user_id
    as it was sent.  When it is false, the submission returns no
    recommendation, and when the truth test raises, the submission raises
    the same; in both cases nothing is stored. *)
Theorem submit_history_record (st : Store) (payload : TestSubmission.t) :
  match db_bool with
  | Return true =>
      ∃ ids st' record,
        submit_test (Some st) payload
        = (Return (TestResult.mk (TestSubmission.user_id payload) ids), Some st')
        ∧ coll st' "testresult"
          = (coll st "testresult" ++ [Doc (Some (new_oid (next_id st))) record])%list
        ∧ record !! "answers" = Some (VStrs (TestSubmission.answers payload))
        ∧ record !! "recommended_ids" = Some (VStrs ids)
        ∧ record !! "user_id"
          = Some (VStr match TestSubmission.user_id payload with
                       | Some (String c s) => String c s
                       | _ => "guest"
                       end)
  | Return false =>
      submit_test (Some st) payload
      = (Return (TestResult.mk (TestSubmission.user_id payload) []), Some st)
  | Raise e => submit_test (Some st) payload = (Raise e, Some st)
  end.
Proof.
  rewrite submit_test_present. destruct db_bool as [[|]|e]; [| done | done].
  eexists _, _, _. split; [reflexivity |].
  split; [apply coll_create_document_eq |].
  split; [reflexivity |]. split; [reflexivity |].
  unfold submit_record, or_guest, str_truthy.
  destruct (TestSubmission.user_id payload) as [[|c s]|]; reflexivity.
Qed.

End isolation.

(** ** The catalog on a collection of careers *)

Lemma filter_fmap_doc {A} (f : A → doc) (p : doc → bool) (l : list A) :
  filter (λ d, p d = true) (f <$> l) = f <$> filter (λ x, p (f x) = true) l.
Proof.
  induction l as [|x l IH]; [done |].
  cbn [fmap list_fmap]. destruct (p (f x)) eqn:Hx.
  - rewrite !filter_cons_True by done. cbn [fmap list_fmap]. by rewrite IH.
  - rewrite !filter_cons_False by (by rewrite Hx). done.
Qed.

Lemma career_card_career_doc (p : ObjectId * Career.t) :
  career_card (career_doc p) = Return (card_of p).
Proof. destruct p as [o c]. reflexivity. Qed.

Lemma mapM_career_card (l : list (ObjectId * Career.t)) :
  mapM career_card (career_doc <$> l) = Return (card_of <$> l).
Proof.
  induction l as [|p l IH]; [done |].
  cbn [fmap list_fmap mapM]. by rewrite career_card_career_doc, IH.
Qed.

(** X13: on a careers collection that holds careers of the schema, and
    with search texts the store accepts as patterns, the catalog search
    returns, in store order, the cards of the first 60 careers that satisfy
    the filter: it does not fail, it leaves out no match among them, and
    each card shows the career's own fields and its identifier as a
    string. *)
Theorem list_careers_complete {engine : Engine} (st : Store)
    (l : list (ObjectId * Career.t)) (q field edu : option string) :
  coll st "career" = career_doc <$> l →
  query_valid (list_careers_query q field edu) = true →
  list_careers (Some st) q field edu
  = Return (card_of <$> take 60
              (filter (λ p, matches (list_careers_query q field edu) (career_doc p) = true)
                 l)).
Proof.
  intros Hcoll Hvalid. unfold list_careers, find. rewrite Hvalid.
  cbn [mbind outcome_bind limit]. rewrite Hcoll, filter_fmap_doc, <- fmap_take.
  apply mapM_career_card.
Qed.

Lemma list_careers_complete_witness :
  coll seeded_store "career"
  = career_doc <$> [(new_oid 0, sample_nurse); (new_oid 1, sample_electrician);
                    (new_oid 2, sample_teacher)]
  ∧ query_valid (engine := small_engine)
      (list_careers_query (Some "e") (Some "Trades") None) = true
  ∧ list_careers (engine := small_engine) (Some seeded_store)
      (Some "e") (Some "Trades") None
    = Return [card_of (new_oid 1, sample_electrician)].
Proof.
  split; [reflexivity |]. split; [reflexivity |].
  rewrite (list_careers_complete (engine := small_engine) seeded_store
             [(new_oid 0, sample_nurse); (new_oid 1, sample_electrician);
              (new_oid 2, sample_teacher)]
             (Some "e") (Some "Trades") None eq_refl eq_refl).
  reflexivity.
Defined.

(** ** Identifiers stay store-assigned *)

(** X14: no handler stores a document under an identifier of its own: on
    a store whose documents all carry store-assigned identifiers, the store
    any handler leaves behind is such a store again, whether the handler
    returned or raised. *)
Theorem store_wf_kept {engine : Engine} (st st' : Store) :
  store_wf st →
  ((seed_data (Some st)).2 = Some st'
   ∨ (∃ item, (save_career (Some st) item).2 = Some st')
   ∨ (∃ user_id saved_id, (delete_saved (Some st) user_id saved_id).2 = Some st')
   ∨ (∃ payload, (submit_test (Some st) payload).2 = Some st')
   ∨ (get_questions (Some st)).2 = Some st'
   ∨ (counselors (Some st)).2 = Some st'
   ∨ (∃ msg, (contact (Some st) msg).2 = Some st')) →
  store_wf st'.
Proof.
  intros Hwf Hstep.
  destruct (handlers_keep_store_wf st Hwf)
    as (Hseed & Hsave & Hdelete & Hsubmit & Hquestions & Hcounselors).
  destruct Hstep as [H|[[item H]|[(u & s & H)|[[payload H]|[H|[H|[msg H]]]]]]].
  - by apply Hseed.
  - by apply (Hsave item).
  - by apply (Hdelete u s).
  - by apply (Hsubmit payload).
  - by apply Hquestions.
  - by apply Hcounselors.
  - unfold contact in H. revert H.
    destruct db_bool as [[|]|e]; [| by store_left | by store_left].
    destruct (create_document _ _ _) as [i st1] eqn:Hins. store_left.
    change st' with (i, st').2. rewrite <- Hins. by apply store_wf_insert_one.
Qed.

Lemma store_wf_kept_witness :
  store_wf seeded_store
  ∧ (save_career (engine := small_engine) (Some seeded_store)
       (SavedCareer.mk "u1" "000000000000000000000001")).2 = Some saved_store
  ∧ store_wf saved_store.
Proof.
  split; [exact store_wf_seeded |]. split; [reflexivity |].
  apply (store_wf_kept (engine := small_engine) seeded_store saved_store
           store_wf_seeded).
  right; left. by exists (SavedCareer.mk "u1" "000000000000000000000001").
Defined.
